(** * ExtendedDiningHall: the stress-testing and trace-capture harnesses

    A shallow embedding of [SolucaoGemini/stress_tester.py] and
    [trace_generator.py].  Both scripts drive an opaque child program through
    [subprocess.run]; everything they compute is decided by the exit status of
    each child, by when the child and the pipes it was given are done, and by
    readings of the wall clock.  The embedding has three layers:

    - [Py]: the fragment of the Python runtime the scripts rely on
      (exceptions, [sys.exit], [time.time], [os.environ], [os.makedirs],
      [subprocess.run] with its redirections), as a state-and-result monad
      over an explicit [World];
    - [StressTester] and [TraceGenerator]: the two scripts, statement by
      statement;
    - [Aggregator]: the Statistics Aggregator of the specification, a pure fold
      over trial outcomes, which the trial loop is shown to refine.

    Numbers: Python [int]s are [Z]; Python [float]s are binary64 floats
    ([PrimFloat.float]) with their rounding.  True time, which decides
    whether a child beats its timeout, is an exact rational number of
    seconds; [time.time] reads it through the host's wall clock as a float.
    Time passes only while the harness waits for a child.  Writing to
    standard output is assumed to succeed. *)

From Stdlib Require Import ZArith QArith Qminmax Lia List String Ascii.
From Stdlib Require Import DecimalString DecimalZ DecimalPos Permutation.
From Stdlib Require Import PrimFloat FloatOps SpecFloat.
From stdpp Require Import base gmap strings list.

Local Open Scope Z_scope.
Local Open Scope string_scope.

(* ===================================================================== *)
(** * The Python runtime fragment *)
(* ===================================================================== *)

Module Py.

(** The exceptions the scripts can meet.  [OSError] stands for what
    [subprocess.Popen] raises when the executable cannot be started
    ([FileNotFoundError], [PermissionError]) and for what [os.makedirs]
    raises ([FileExistsError], [PermissionError]). *)
Inductive Exn : Type :=
| TimeoutExpired
| CalledProcessError (returncode : Z)
| OSError
| UnicodeDecodeError.

(** How a statement can end. *)
Inductive Result (A : Type) : Type :=
| Return (a : A)        (* falls through to the next statement *)
| Raise (e : Exn)       (* an exception is propagating *)
| SysExit (code : Z)    (* [sys.exit(code)] is unwinding the interpreter *)
| Hang.                 (* blocked for ever on a child run without timeout *)
Arguments Return {A} a.
Arguments Raise {A} e.
Arguments SysExit {A} code.
Arguments Hang {A}.

(** The [stdout=] and [stderr=] arguments of [subprocess.run]. *)
Inductive Stdio : Type :=
| Inherit     (* argument absent: the child writes where the harness does *)
| DEVNULL
| PIPE.

(** A program that was started.  Times are seconds from its launch; [None]
    means never. *)
Record Process : Type := mkProcess {
  lifetime : option Q;      (* when the child itself exits *)
  status : Z;               (* its exit status *)
  stdout_held : option Q;   (* when the last process holding the child's
                               standard output (the child or a descendant
                               that inherited it) has closed it *)
  stderr_held : option Q;   (* the same for its standard error *)
  decodable : bool          (* what it writes is text in the locale's
                               encoding *)
}.

(** What the operating system does with the next program that is launched. *)
Inductive Child : Type :=
| CannotSpawn                  (* not found / not executable *)
| Spawned (p : Process).

(** One child that was actually started. *)
Record Call : Type := mkCall {
  call_argv : list string;
  call_stdout : Stdio;
  call_stderr : Stdio;
  call_env : gmap string string;   (* the environment the child received *)
  call_timeout : option Q;
  call_killed : bool               (* killed by [subprocess.run] *)
}.

(** The colours [print_report] uses. *)
Inductive Color : Type := OKGREEN | WARNING | FAIL.

(** What the scripts print; one constructor per kind of line, carrying the
    values interpolated into it. *)
Inductive Output : Type :=
| OutSetupCompiling
| OutMakeMissing
| OutCompileError
| OutCompileStderr
| OutCompileOk
| OutCompileException
| OutStart
| OutTimeoutBanner
| OutScenarioHeader (users : Z) (label : string)
| OutProgress
| OutMark (mark : string)
| OutBlank
| OutReportTitle
| OutReportHeader
| OutRule
| OutReportRow (users : Z) (success_str : Color * Z)
               (deadlock_str : Color * Z) (fails : Z) (avg_time_4f : string)
| OutApproved
| OutReproved
| OutTracePreparing
| OutTraceCompileError
| OutTraceGenerating
| OutTraceRunning (n : Z) (log_filename : string)
| OutTraceTimeout (n : Z)
| OutTraceExecError (n : Z)
| OutTraceDone.

Record World : Type := mkWorld {
  now : Q;                         (* true time, in seconds *)
  wall_clock : Q -> float;         (* what [time.time()] returns at each
                                      instant *)
  environ : gmap string string;    (* [os.environ] *)
  on_path : gset string;           (* programs [shutil.which] can find *)
  fs : gset string;                (* paths for which [os.path.exists] holds *)
  uncreatable : gset string;       (* paths at which [os.makedirs] fails *)
  children : nat -> Child;         (* fate of the n-th launch of this run *)
  launched : nat;                  (* launches attempted so far *)
  calls : list Call;               (* children started so far, oldest first *)
  stdout : list Output             (* printed so far, oldest first *)
}.

Definition M (A : Type) : Type := World -> Result A * World.

Definition ret {A} (a : A) : M A := fun w => (Return a, w).

Definition bind {A B} (m : M A) (k : A -> M B) : M B := fun w =>
  match m w with
  | (Return a, w') => k a w'
  | (Raise e, w') => (Raise e, w')
  | (SysExit c, w') => (SysExit c, w')
  | (Hang, w') => (Hang, w')
  end.

Declare Scope py_scope.
Delimit Scope py_scope with py.
Notation "'let*' x ':=' m 'in' k" := (bind m (fun x => k))
  (at level 10, x name, m at level 100, k at level 200) : py_scope.
Notation "m '>>' k" := (bind m (fun _ => k))
  (at level 90, right associativity) : py_scope.
Local Open Scope py_scope.

(** [sys.exit(code)]. *)
Definition sys_exit {A} (code : Z) : M A := fun w => (SysExit code, w).

(** [try: body except ...: handler]; [handler e = None] when no [except]
    clause matches [e].  [SystemExit] is not an [Exception] and passes through
    every clause the scripts use. *)
Definition try_except {A} (body : M A) (handler : Exn -> option (M A)) : M A :=
  fun w =>
    match body w with
    | (Raise e, w') =>
        match handler e with
        | Some h => h w'
        | None => (Raise e, w')
        end
    | r => r
    end.

(** [for x in xs: s = body(x, s)], the loop-carried variables being [s]. *)
Fixpoint for_each {A S} (xs : list A) (body : A -> S -> M S) (s : S) : M S :=
  match xs with
  | [] => ret s
  | x :: xs' => let* s' := body x s in for_each xs' body s'
  end.

Definition range (n : Z) : list Z := map Z.of_nat (seq 0 (Z.to_nat n)).

(** The world with one more line printed. *)
Definition printed (w : World) (o : Output) : World :=
  mkWorld (now w) (wall_clock w) (environ w) (on_path w) (fs w)
          (uncreatable w) (children w) (launched w) (calls w)
          (stdout w ++ [o]).

(** [print] and [sys.stdout.write]. *)
Definition print (o : Output) : M unit := fun w => (Return tt, printed w o).

Definition time_time : M float :=
  fun w => (Return (wall_clock w (now w)), w).

Definition os_environ_copy : M (gmap string string) :=
  fun w => (Return (environ w), w).

Definition shutil_which (prog : string) : M bool :=
  fun w => (Return (bool_decide (prog ∈ on_path w)), w).

Definition os_path_exists (p : string) : M bool :=
  fun w => (Return (bool_decide (p ∈ fs w)), w).

(** [os.makedirs(p)]: raises when the path exists ([FileExistsError]) or
    cannot be created (a dangling symbolic link of that name, a parent
    directory that cannot be written). *)
Definition os_makedirs (p : string) : M unit := fun w =>
  if (bool_decide (p ∈ fs w) || bool_decide (p ∈ uncreatable w))%bool
  then (Raise OSError, w)
  else (Return tt,
        mkWorld (now w) (wall_clock w) (environ w) (on_path w)
                ({[p]} ∪ fs w) (uncreatable w) (children w)
                (launched w) (calls w) (stdout w)).

(** [str(n)] for an [int]. *)
Definition str (n : Z) : string := NilZero.string_of_int (Z.to_int n).

(** [float(n)] for an [int]: the nearest float. *)
Definition float_of_int (n : Z) : float :=
  SF2Prim (binary_normalize prec emax n 0 false).

(** [format(x, ".4f")]: the decimal with four places nearest to the exact
    value of [x], ties to the even one. *)
Definition pad4 (n : Z) : string :=
  let s := str n in
  match String.length s with
  | 0%nat => "0000"
  | 1%nat => "000" ++ s
  | 2%nat => "00" ++ s
  | 3%nat => "0" ++ s
  | _ => s
  end.

Definition format_4f (x : float) : string :=
  match Prim2SF x with
  | S754_nan => "nan"
  | S754_infinity s => if s then "-inf" else "inf"
  | S754_zero s => if s then "-0.0000" else "0.0000"
  | S754_finite s m e =>
      let num := Z.pos m * 10000 * 2 ^ Z.max e 0 in
      let den := 2 ^ Z.max (- e) 0 in
      let q := num / den in
      let r := num mod den in
      let n := if (2 * r <? den)%Z then q
               else if (den <? 2 * r)%Z then q + 1
               else if Z.even q then q else q + 1 in
      (if s then "-" else "") ++ str (n / 10000) ++ "." ++ pad4 (n mod 10000)
  end.

(** [os.path.join(a, b)] of [posixpath]. *)
Definition ends_with_slash (a : string) : bool :=
  match rev (list_ascii_of_string a) with
  | c :: _ => Ascii.eqb c "/"%char
  | [] => false
  end.

Definition os_path_join (a b : string) : string :=
  match b with
  | String c _ =>
      if Ascii.eqb c "/"%char then b
      else if (String.eqb a "" || ends_with_slash a)%bool then a ++ b
      else a ++ "/" ++ b
  | EmptyString =>
      if (String.eqb a "" || ends_with_slash a)%bool then a else a ++ "/"
  end.

(** The world after a launch: [dt] seconds have passed and, when the
    program could be started, the call is on record. *)
Definition after_launch (w : World) (dt : Q) (started : list Call) : World :=
  mkWorld (now w + dt)%Q (wall_clock w) (environ w) (on_path w) (fs w)
          (uncreatable w) (children w) (S (launched w))
          (calls w ++ started) (stdout w).

(** When a stream of the child can be read to its end: at once when it is
    not a pipe (there is nothing to read), else when its last holder closes
    it. *)
Definition drained (redirect : Stdio) (held : option Q) : option Q :=
  match redirect with
  | PIPE => held
  | _ => Some 0%Q
  end.

(** The later of two instants. *)
Definition later (a b : option Q) : option Q :=
  match a, b with
  | Some x, Some y => Some (Qmax x y)
  | _, _ => None
  end.

(** The child itself has exited before [t] seconds have passed. *)
Definition exited_before (t : Q) (lifetime : option Q) : bool :=
  match lifetime with
  | Some d => negb (Qle_bool t d)
  | None => false
  end.

Definition is_pipe (redirect : Stdio) : bool :=
  match redirect with PIPE => true | _ => false end.

(** [subprocess.run(argv, stdout=out, stderr=err, text=text, env=env,
    timeout=timeout, check=check)] on POSIX, returning the [returncode] of
    the [CompletedProcess].  The call first reads every pipe to its end, then
    waits for the child, then decodes what it read when [text] is set.  With
    a timeout, [TimeoutExpired] is raised when reading and waiting are not
    over in time, and the child is killed if it is still running; without
    one the call reads and waits however long it takes.  (With [text] and
    a single pipe and no timeout, Python decodes while it reads; the scripts
    have no such call.) *)
Definition subprocess_run (argv : list string) (out err : Stdio)
    (text : bool) (env : option (gmap string string)) (timeout : option Q)
    (check : bool) : M Z := fun w =>
  match children w (launched w) with
  | CannotSpawn => (Raise OSError, after_launch w 0 [])
  | Spawned p =>
      let call killed :=
        mkCall argv out err (default (environ w) env) timeout killed in
      let finished :=
        later (later (drained out (stdout_held p))
                     (drained err (stderr_held p)))
              (lifetime p) in
      let completed d :=
        let w' := after_launch w d [call false] in
        if (text && (is_pipe out || is_pipe err) && negb (decodable p))%bool
        then (Raise UnicodeDecodeError, w')
        else if (check && negb (status p =? 0)%Z)%bool
        then (Raise (CalledProcessError (status p)), w')
        else (Return (status p), w') in
      let expired t :=
        (Raise TimeoutExpired,
         after_launch w t [call (negb (exited_before t (lifetime p)))]) in
      match finished, timeout with
      | Some d, Some t => if Qle_bool t d then expired t else completed d
      | Some d, None => completed d
      | None, Some t => expired t
      | None, None => (Hang, after_launch w 0 [call false])
      end
  end.

(** The exit status of the interpreter for a script that ended with [r]. *)
Definition exit_status {A} (r : Result A) : option Z :=
  match r with
  | Return _ => Some 0
  | SysExit c => Some c
  | Raise _ => Some 1
  | Hang => None
  end.

End Py.

Import Py.
Local Open Scope py_scope.

(* ===================================================================== *)
(** * [SolucaoGemini/stress_tester.py] *)
(* ===================================================================== *)

Module StressTester.

Definition BINARY_NAME : string := "./dining_hall".
Definition TIMEOUT_SECONDS : Z := 5.
Definition NUM_RUNS : Z := 30.

Record Scenario : Type := mkScenario { users : Z; label : string }.

Definition SCENARIOS : list Scenario :=
  [ mkScenario 2 "Par (Minimal Check)";
    mkScenario 3 "Ímpar (Edge Case - Sobra 1?)";
    mkScenario 10 "Grupo Pequeno (Concorrência Padrão)";
    mkScenario 50 "Carga Alta (Stress Test)" ].

(** The four variables the trial loop updates.  [avg_time] starts as the
    [int] 0, which Python adds, divides and prints as the float 0. *)
Record Counters : Type := mkCounters {
  success_count : Z;
  fail_count : Z;
  deadlocks : Z;
  avg_time : float
}.

(** One entry of [summary]: the dictionary appended after each scenario. *)
Record Stats : Type := mkStats {
  st_users : Z;
  st_success : Z;
  st_fails : Z;
  st_deadlocks : Z;
  st_avg_time : float
}.

(** [check_compilation]: every exit path of the function, including the
    catch-all [except Exception] around the two [make] runs. *)
Definition check_compilation : M unit :=
  print OutSetupCompiling >>
  let* found := shutil_which "make" in
  if negb found then
    print OutMakeMissing >> sys_exit 1
  else
    try_except
      (let* _ := subprocess_run ["make"; "clean"] DEVNULL DEVNULL false
                                None None false in
       let* returncode := subprocess_run ["make"] PIPE PIPE true
                                         None None false in
       if negb (returncode =? 0)%Z then
         print OutCompileError >> print OutCompileStderr >> sys_exit 1
       else
         print OutCompileOk)
      (fun _ => Some (print OutCompileException >> sys_exit 1)).

(** The body of [for i in range(NUM_RUNS)]. *)
Definition trial (users : Z) (c : Counters) : M Counters :=
  let* start_time := time_time in
  try_except
    (let* returncode :=
       subprocess_run [BINARY_NAME; str users] DEVNULL PIPE false None
                      (Some (inject_Z TIMEOUT_SECONDS)) false in
     if (returncode =? 0)%Z then
       print (OutMark ".") >>
       let* t := time_time in
       ret (mkCounters (success_count c + 1) (fail_count c) (deadlocks c)
                       (avg_time c + (t - start_time))%float)
     else
       print (OutMark "E") >>
       ret (mkCounters (success_count c) (fail_count c + 1) (deadlocks c)
                       (avg_time c)))
    (fun e =>
       match e with
       | TimeoutExpired =>
           Some (print (OutMark "D") >>
                 ret (mkCounters (success_count c) (fail_count c)
                                 (deadlocks c + 1) (avg_time c)))
       | _ => None
       end).

(** The statements after the trial loop: the mean and the summary entry. *)
Definition final_stats (users : Z) (c : Counters) : Stats :=
  let final_avg :=
    if (0 <? success_count c)%Z
    then (avg_time c / float_of_int (success_count c))%float
    else 0%float in
  mkStats users (success_count c) (fail_count c) (deadlocks c) final_avg.

(** The body of [for scenario in SCENARIOS], for [runs] trials. *)
Definition run_scenario (runs : Z) (scenario : Scenario)
    (summary : list Stats) : M (list Stats) :=
  print (OutScenarioHeader (users scenario) (label scenario)) >>
  print OutProgress >>
  let* c := for_each (range runs) (fun _ c => trial (users scenario) c)
                     (mkCounters 0 0 0 0%float) in
  print OutBlank >>
  ret (summary ++ [final_stats (users scenario) c])%list.

(** The battery over any scenario list and trial count. *)
Definition run_battery (scenarios : list Scenario) (runs : Z)
    : M (list Stats) :=
  for_each scenarios (run_scenario runs) [].

Definition run_stress_test : M (list Stats) :=
  print OutStart >>
  print OutTimeoutBanner >>
  run_battery SCENARIOS NUM_RUNS.

(** The body of the loop of [print_report], which derives [all_passed]. *)
Definition report_row (item : Stats) (all_passed : bool) : M bool :=
  let success_str :=
    if (st_success item =? NUM_RUNS)%Z then (OKGREEN, st_success item)
    else (WARNING, st_success item) in
  let deadlock_str :=
    if (0 <? st_deadlocks item)%Z then (FAIL, st_deadlocks item)
    else (OKGREEN, 0) in
  let all_passed' :=
    if ((0 <? st_deadlocks item)%Z || (0 <? st_fails item)%Z)%bool
    then false else all_passed in
  print (OutReportRow (st_users item) success_str deadlock_str
                      (st_fails item) (format_4f (st_avg_time item))) >>
  ret all_passed'.

Definition print_report (summary : list Stats) : M unit :=
  print OutReportTitle >>
  print OutReportHeader >>
  print OutRule >>
  let* all_passed := for_each summary report_row true in
  print OutRule >>
  if all_passed : bool then
    print OutApproved >> sys_exit 0
  else
    print OutReproved >> sys_exit 1.

Definition main : M unit :=
  check_compilation >>
  let* results := run_stress_test in
  print_report results.

End StressTester.

(* ===================================================================== *)
(** * [trace_generator.py] *)
(* ===================================================================== *)

Module TraceGenerator.

Definition SOURCE_FILE : string := "dining_hall_logged.c".
Definition BINARY_NAME : string := "./dining_hall_logged".
Definition OUTPUT_DIR : string := "trace_logs".
Definition SCENARIOS : list Z := [2; 3; 10].

Definition setup : M unit :=
  print OutTracePreparing >>
  let* present := os_path_exists OUTPUT_DIR in
  (if negb present then os_makedirs OUTPUT_DIR else ret tt) >>
  let cmd := ["gcc"; "-Wall"; "-pthread"; "-O2"; "-o"; BINARY_NAME;
              SOURCE_FILE] in
  let* returncode := subprocess_run cmd Inherit Inherit false None None
                                    false in
  if negb (returncode =? 0)%Z then
    print OutTraceCompileError >> sys_exit 1
  else ret tt.

(** [os.path.join(OUTPUT_DIR, f"trace_{n}_students.txt")]. *)
Definition log_filename (n : Z) : string :=
  os_path_join OUTPUT_DIR ("trace_" ++ str n ++ "_students.txt").

(** The body of [for n in SCENARIOS]; the loop carries no variable. *)
Definition trace_scenario (n : Z) (_ : unit) : M unit :=
  print (OutTraceRunning n (log_filename n)) >>
  let* env_copy := os_environ_copy in
  let env_vars := <["DINING_LOG_FILE" := log_filename n]> env_copy in
  try_except
    (let* _ := subprocess_run [BINARY_NAME; str n] Inherit Inherit false
                              (Some env_vars) (Some (inject_Z 10)) true in
     ret tt)
    (fun e =>
       match e with
       | TimeoutExpired => Some (print (OutTraceTimeout n))
       | CalledProcessError _ => Some (print (OutTraceExecError n))
       | _ => None
       end).

Definition generate_traces : M unit :=
  print OutTraceGenerating >>
  for_each SCENARIOS trace_scenario tt >>
  print OutTraceDone.

Definition main : M unit :=
  setup >> generate_traces.

End TraceGenerator.

(* ===================================================================== *)
(** * Trial outcomes and the Statistics Aggregator *)
(* ===================================================================== *)

Module Aggregator.
Import StressTester.

(** The three ways a trial can end. *)
Inductive TrialOutcome : Type :=
| Success (duration : float)
| RuntimeError
| TimeoutDeadlock.

Definition is_success (o : TrialOutcome) : bool :=
  match o with Success _ => true | _ => false end.
Definition is_runtime_error (o : TrialOutcome) : bool :=
  match o with RuntimeError => true | _ => false end.
Definition is_timeout (o : TrialOutcome) : bool :=
  match o with TimeoutDeadlock => true | _ => false end.

Definition count (p : TrialOutcome -> bool) (outcomes : list TrialOutcome) : Z :=
  Z.of_nat (length (List.filter p outcomes)).

(** The durations of the [Success] outcomes, in order. *)
Fixpoint success_durations (outcomes : list TrialOutcome) : list float :=
  match outcomes with
  | [] => []
  | Success d :: rest => d :: success_durations rest
  | _ :: rest => success_durations rest
  end.

(** The floating-point sum of a list, added from left to right onto 0. *)
Definition fsum (ds : list float) : float := fold_left PrimFloat.add ds 0%float.


(** The aggregator as the specification words it: count each kind, and
    divide the sum of the [Success] durations by their number, or give 0
    when there is none. *)
Definition aggregate (users : Z) (outcomes : list TrialOutcome) : Stats :=
  let successCount := count is_success outcomes in
  mkStats users successCount
          (count is_runtime_error outcomes)
          (count is_timeout outcomes)
          (if (successCount =? 0)%Z then 0%float
           else (fsum (success_durations outcomes)
                 / float_of_int successCount)%float).

(** What one pass through the trial body does to the counters, by outcome. *)
Definition tally (c : Counters) (o : TrialOutcome) : Counters :=
  match o with
  | Success d =>
      mkCounters (success_count c + 1) (fail_count c) (deadlocks c)
                 (avg_time c + d)%float
  | RuntimeError =>
      mkCounters (success_count c) (fail_count c + 1) (deadlocks c) (avg_time c)
  | TimeoutDeadlock =>
      mkCounters (success_count c) (fail_count c) (deadlocks c + 1) (avg_time c)
  end.

(** The progress mark of each outcome. *)
Definition mark_of (o : TrialOutcome) : string :=
  match o with
  | Success _ => "."
  | RuntimeError => "E"
  | TimeoutDeadlock => "D"
  end.

(** The instant [when] comes before [t] seconds have passed. *)
Definition exits_in_time (t : Q) (when : option Q) : Prop :=
  match when with
  | Some d => (d < t)%Q
  | None => False
  end.

(** When [subprocess.run] is done with the child of a trial: its standard
    error, the one pipe of the call, is at its end and the child has
    exited. *)
Definition trial_done (p : Process) : option Q :=
  later (later (drained DEVNULL (stdout_held p))
               (drained PIPE (stderr_held p)))
        (lifetime p).

(** The outcome of the trial that launches child number [k] at the instant
    [t0] on a host whose wall clock is [wall]; [None] when that child cannot
    be started. *)
Definition observe (ch : nat -> Child) (wall : Q -> float) (k : nat)
    (t0 : Q) : option TrialOutcome :=
  match ch k with
  | CannotSpawn => None
  | Spawned p =>
      match trial_done p with
      | Some d =>
          if Qle_bool (inject_Z TIMEOUT_SECONDS) d then Some TimeoutDeadlock
          else if (status p =? 0)%Z
          then Some (Success (wall (t0 + d)%Q - wall t0)%float)
          else Some RuntimeError
      | None => Some TimeoutDeadlock
      end
  end.

(** How long the trial of child [k] keeps the harness waiting. *)
Definition waited (ch : nat -> Child) (k : nat) : Q :=
  match ch k with
  | CannotSpawn => 0%Q
  | Spawned p =>
      match trial_done p with
      | Some d =>
          if Qle_bool (inject_Z TIMEOUT_SECONDS) d
          then inject_Z TIMEOUT_SECONDS else d
      | None => inject_Z TIMEOUT_SECONDS
      end
  end.

(** The outcomes of [n] consecutive trials starting with child [k] at the
    instant [t0]; the sequence stops at a child that cannot be started. *)
Fixpoint observed (ch : nat -> Child) (wall : Q -> float) (k : nat)
    (t0 : Q) (n : nat) : list TrialOutcome :=
  match n with
  | O => []
  | S n' =>
      match observe ch wall k t0 with
      | Some o => o :: observed ch wall (S k) (t0 + waited ch k)%Q n'
      | None => []
      end
  end.

(** The outcome sequence of the scenario that starts in world [w]. *)
Definition scenario_outcomes (runs : Z) (w : World) : list TrialOutcome :=
  observed (children w) (wall_clock w) (launched w) (now w) (Z.to_nat runs).

(** The next [n] launches can all be started. *)
Definition can_start (c : Child) : bool :=
  match c with CannotSpawn => false | Spawned _ => true end.
Definition spawnable (w : World) (n : nat) : bool :=
  forallb (fun k => can_start (children w k)) (seq (launched w) n).

(** [subprocess.run] kills the child of a trial: the trial timed out and the
    child had not exited by then. *)
Definition trial_kills (c : Child) : bool :=
  match c with
  | CannotSpawn => false
  | Spawned p =>
      match trial_done p with
      | Some d =>
          if Qle_bool (inject_Z TIMEOUT_SECONDS) d
          then negb (exited_before (inject_Z TIMEOUT_SECONDS) (lifetime p))
          else false
      | None => negb (exited_before (inject_Z TIMEOUT_SECONDS) (lifetime p))
      end
  end.

(** The record [subprocess.run] keeps of the trial of child [c]. *)
Definition trial_call (users : Z) (env : gmap string string) (c : Child)
    : Call :=
  mkCall [BINARY_NAME; str users] DEVNULL PIPE env
         (Some (inject_Z TIMEOUT_SECONDS)) (trial_kills c).

(** The children of a scenario's trials, as the call log records them. *)
Definition scenario_calls (runs : Z) (sc : Scenario) (w : World) : list Call :=
  map (fun k => trial_call (users sc) (environ w) (children w k))
      (seq (launched w) (Z.to_nat runs)).

(** The world a trial with outcome [o] leaves behind. *)
Definition after_trial (users : Z) (w : World) (o : TrialOutcome) : World :=
  mkWorld (now w + waited (children w) (launched w))%Q (wall_clock w)
          (environ w) (on_path w) (fs w) (uncreatable w) (children w)
          (S (launched w))
          (calls w ++ [trial_call users (environ w)
                                  (children w (launched w))])
          (stdout w ++ [OutMark (mark_of o)]).

(** Two worlds on the same host: launches meet the same fate, and the wall
    clock, the environment, the search path and the file system agree. *)
Definition same_host (w w' : World) : Prop :=
  children w' = children w /\ wall_clock w' = wall_clock w /\
  environ w' = environ w /\ on_path w' = on_path w /\ fs w' = fs w /\
  uncreatable w' = uncreatable w.

(** What a trial leaves in the call log, reduced to the command line and
    the timeout. *)
Definition call_sig (c : Call) : list string * option Q :=
  (call_argv c, call_timeout c).

(** An entry a battery appends for scenario [sc]: the aggregate of [runs]
    outcomes of that scenario. *)
Definition entry_of (runs : Z) (sc : Scenario) (st : Stats) : Prop :=
  exists os, length os = Z.to_nat runs /\ st = aggregate (users sc) os.

(** The sum of the three counters of a summary entry. *)
Definition total (s : Stats) : Z :=
  st_success s + st_fails s + st_deadlocks s.


(** The test [print_report] applies to one row: neither count is positive. *)
Definition row_passes (item : Stats) : bool :=
  negb ((0 <? st_deadlocks item)%Z || (0 <? st_fails item)%Z).

(** The value of [all_passed] when the loop of [print_report] is done. *)
Definition overall_pass (summary : list Stats) (w : World) : Result bool :=
  fst (for_each summary report_row true w).

(** A summary entry with no deadlock and no runtime error. *)
Definition clean (s : Stats) : Prop :=
  st_deadlocks s = 0 /\ st_fails s = 0.

(** Counts are non-negative, as those of every summary entry are. *)
Definition counts_nonneg (s : Stats) : Prop :=
  0 <= st_success s /\ 0 <= st_fails s /\ 0 <= st_deadlocks s.

End Aggregator.

(* ===================================================================== *)
(** * What the trace driver observes *)
(* ===================================================================== *)

Module TraceObservation.
Import TraceGenerator.

(** The safety timeout of the trace driver, in seconds. *)
Definition TRACE_TIMEOUT : Q := inject_Z 10.

(** When [subprocess.run] is done with the child of a trace scenario: no
    stream is a pipe, so when the child has exited. *)
Definition trace_done (p : Process) : option Q :=
  later (later (drained Inherit (stdout_held p))
               (drained Inherit (stderr_held p)))
        (lifetime p).

(** The child of a trace scenario is still running when the timeout
    elapses. *)
Definition trace_timed_out (p : Process) : bool :=
  match trace_done p with
  | Some d => Qle_bool TRACE_TIMEOUT d
  | None => true
  end.

(** [subprocess.run] kills the child of a trace scenario: the timeout
    elapsed and the child had not exited by then. *)
Definition trace_kills (p : Process) : bool :=
  if trace_timed_out p
  then negb (exited_before TRACE_TIMEOUT (lifetime p)) else false.

(** What the driver prints about scenario [n] after its child ended. *)
Definition trace_report (n : Z) (p : Process) : list Output :=
  if trace_timed_out p then [OutTraceTimeout n]
  else if (status p =? 0)%Z then []
  else [OutTraceExecError n].

(** The environment handed to the child of scenario [n]. *)
Definition trace_env (environ : gmap string string) (n : Z)
    : gmap string string :=
  <["DINING_LOG_FILE" := log_filename n]> environ.

(** How long a scenario keeps the driver waiting. *)
Definition trace_waited (p : Process) : Q :=
  match trace_done p with
  | Some d => if Qle_bool TRACE_TIMEOUT d then TRACE_TIMEOUT else d
  | None => TRACE_TIMEOUT
  end.

(** Everything the scenario loop prints for the degrees [ns], the first of
    them launching child [k]. *)
Fixpoint trace_outputs (ch : nat -> Child) (k : nat) (ns : list Z)
    : list Output :=
  match ns with
  | [] => []
  | n :: ns' =>
      OutTraceRunning n (log_filename n) ::
      match ch k with
      | Spawned p =>
          (trace_report n p ++ trace_outputs ch (S k) ns')%list
      | CannotSpawn => []
      end
  end.

End TraceObservation.

(* ===================================================================== *)
(** * Concrete hosts *)
(* ===================================================================== *)

Module Hosts.
Import StressTester.

(** A child without descendants: its streams are closed when it exits, and
    what it writes is text. *)
Definition simple (lifetime : option Q) (status : Z) : Process :=
  mkProcess lifetime status lifetime lifetime true.

(** A wall clock that reads the true time, rounded to the nearest float. *)
Definition Q2float (t : Q) : float :=
  (float_of_int (Qnum t) / float_of_int (Z.pos (Qden t)))%float.

(** A fresh run, started at the instant [t0], on a host where launch [k]
    meets the fate [ch k]. *)
Definition host_at (t0 : Q) (ch : nat -> Child) : World :=
  mkWorld t0 Q2float ∅ {["make"]} ∅ ∅ ch 0 [] [].

Definition host (ch : nat -> Child) : World := host_at 0 ch.

(** Children that in turn succeed after half a second, fail with status 3
    after one second, and never terminate. *)
Definition mixed (k : nat) : Child :=
  match (k mod 3)%nat with
  | 0%nat => Spawned (simple (Some (1 # 2)%Q) 0)
  | 1%nat => Spawned (simple (Some 1%Q) 3)
  | _ => Spawned (simple None 0)
  end.

(** The same children in another order. *)
Definition mixed' (k : nat) : Child := mixed (S k).

(** Children that all succeed at once, except that launch [j] finds no
    executable. *)
Definition missing_at (j k : nat) : Child :=
  if (k =? j)%nat then CannotSpawn else Spawned (simple (Some 0%Q) 0).

(** A build that succeeds, followed by a target that always behaves as
    [target]. *)
Definition built_then (target : Child) (k : nat) : Child :=
  if (k <? 2)%nat then Spawned (simple (Some 1%Q) 0) else target.

(** A child that exits with status 0 after one second and leaves behind a
    descendant that keeps its standard error open for ever. *)
Definition orphaning : Process :=
  mkProcess (Some 1%Q) 0 (Some 1%Q) None true.


(** A host on which every child orphans such a descendant. *)
Definition orphan_host : World := host (fun _ => Spawned orphaning).

(** The first built-in scenario. *)
Definition pair : Scenario := mkScenario 2 "Par (Minimal Check)".



(** A summary with a deadlock and a runtime error, and another with the
    same failure counts. *)
Definition failed_summary : list Stats :=
  [mkStats 2 30 0 0 0.25%float; mkStats 3 28 1 1 0.5%float].
Definition failed_summary' : list Stats :=
  [mkStats 10 7 0 0 0%float; mkStats 50 0 1 1 5%float].

End Hosts.

(* ===================================================================== *)
(** * End-to-end runs *)
(* ===================================================================== *)

Module EndToEnd.
Import StressTester.

(** The summary of a run, with the averages as the report prints them. *)
Definition summary_of (r : Result (list Stats) * World)
    : option (list (Z * Z * Z * Z * string)) :=
  match fst r with
  | Return summary =>
      Some (map (fun s => (st_users s, st_success s, st_fails s,
                           st_deadlocks s, format_4f (st_avg_time s)))
                summary)
  | _ => None
  end.

End EndToEnd.

(* ===================================================================== *)
(** * Builds, successful children and report lines *)
(* ===================================================================== *)

Module Harness.
Import StressTester Aggregator.

Definition is_some {A} (o : option A) : bool :=
  match o with Some _ => true | None => false end.

(** A child that is started and terminates on its own. *)
Definition terminates (c : Child) : bool :=
  match c with
  | Spawned p => is_some (lifetime p)
  | CannotSpawn => false
  end.

(** A child that is started, exits with status 0, has both its output
    streams closed at some time, and wrote text. *)
Definition builds (c : Child) : bool :=
  match c with
  | Spawned p =>
      is_some (lifetime p) && is_some (stdout_held p) &&
      is_some (stderr_held p) && decodable p && (status p =? 0)%Z
  | CannotSpawn => false
  end.


(** A child that is started and never exits. *)
Definition never_exits (c : Child) : bool :=
  match c with
  | Spawned p => negb (is_some (lifetime p))
  | CannotSpawn => false
  end.

(** [make] is on the search path, [make clean] terminates (whatever its
    status) and [make] builds. *)
Definition build_succeeds (w : World) : bool :=
  bool_decide ("make" ∈ on_path w) &&
  terminates (children w (launched w)) &&
  builds (children w (S (launched w))).

(** A child that a trial counts as a success: it exits with status 0 and
    its standard error is closed before the trial's timeout. *)
Definition child_succeeds (c : Child) : bool :=
  match c with
  | Spawned p =>
      exited_before (inject_Z TIMEOUT_SECONDS) (lifetime p) &&
      exited_before (inject_Z TIMEOUT_SECONDS) (stderr_held p) &&
      (status p =? 0)%Z
  | CannotSpawn => false
  end.

(** A child that is started and still running when the trial's timeout
    elapses. *)
Definition outlives_timeout (c : Child) : bool :=
  match c with
  | Spawned p => negb (exited_before (inject_Z TIMEOUT_SECONDS) (lifetime p))
  | CannotSpawn => false
  end.

(** A child whose trial ends in a timeout: it has not both exited and closed
    its standard error before the trial's timeout. *)
Definition times_out (c : Child) : bool :=
  match c with
  | Spawned p =>
      negb (exited_before (inject_Z TIMEOUT_SECONDS) (lifetime p) &&
            exited_before (inject_Z TIMEOUT_SECONDS) (stderr_held p))
  | CannotSpawn => false
  end.

(** A child that is started and exits with status 0. *)
Definition exits_zero (c : Child) : bool :=
  match c with
  | Spawned p => is_some (lifetime p) && (status p =? 0)%Z
  | CannotSpawn => false
  end.

(** The output directory of the trace driver is there or can be created. *)
Definition dir_ready (w : World) : bool :=
  bool_decide (TraceGenerator.OUTPUT_DIR ∈ fs w) ||
  negb (bool_decide (TraceGenerator.OUTPUT_DIR ∈ uncreatable w)).

(** The next [n] children all count as successes. *)
Definition all_succeed (w : World) (n : nat) : bool :=
  forallb (fun k => child_succeeds (children w k)) (seq (launched w) n).

(** The line [print_report] prints for one summary entry: the number of
    students, the successes (green when all trials succeeded), the deadlocks
    (in red, or a green literal 0 when there is none), the failures and the
    average with four decimals. *)
Definition report_line (item : Stats) : Output :=
  OutReportRow (st_users item)
               (if (st_success item =? NUM_RUNS)%Z then OKGREEN else WARNING,
                st_success item)
               (if (0 <? st_deadlocks item)%Z then (FAIL, st_deadlocks item)
                else (OKGREEN, 0))
               (st_fails item)
               (format_4f (st_avg_time item)).

(** The last line of the report. *)
Definition verdict_line (all_passed : bool) : Output :=
  if all_passed then OutApproved else OutReproved.

(** How often the mark [m] occurs in [marks]. *)
Definition mark_count (m : string) (marks : list string) : Z :=
  Z.of_nat (length (List.filter (String.eqb m) marks)).

(** How many of the children on record were killed. *)
Definition killed_count (cs : list Call) : Z :=
  Z.of_nat (length (List.filter call_killed cs)).

(** A host with [make] on which every child exits with status 1 after one
    second. *)
Definition make_fails : World :=
  Hosts.host (fun _ => Spawned (Hosts.simple (Some 1%Q) 1)).

(** A host without [make]. *)
Definition no_make : World :=
  mkWorld 0%Q Hosts.Q2float ∅ ∅ ∅ ∅
          (fun _ => Spawned (Hosts.simple (Some 0%Q) 0)) 0 [] [].

End Harness.

(* ===================================================================== *)
(** * Instants and timeouts *)
(* ===================================================================== *)

Module TimeFacts.
Import StressTester Aggregator.

Lemma Qle_bool_false t d : Qle_bool t d = false <-> (d < t)%Q.
Proof.
  split.
  - intros E. apply Qnot_le_lt. intros H. apply Qle_bool_iff in H. congruence.
  - intros H. destruct (Qle_bool t d) eqn:E; [|reflexivity].
    apply Qle_bool_iff in E. apply Qlt_not_le in H. contradiction.
Qed.

Lemma exited_before_spec t o : exited_before t o = true <-> exits_in_time t o.
Proof.
  destruct o as [d|]; simpl; [|split; [discriminate|tauto]].
  rewrite negb_true_iff. apply Qle_bool_false.
Qed.

Lemma exits_in_time_dec t o : exits_in_time t o \/ ~ exits_in_time t o.
Proof.
  destruct o as [d|]; simpl; [|tauto].
  destruct (Qlt_le_dec d t); [left; assumption|].
  right. apply Qle_not_lt. assumption.
Qed.

(** The later of two instants comes before [t] exactly when both do. *)
Lemma later_in_time t a b :
  exits_in_time t (later a b) <-> exits_in_time t a /\ exits_in_time t b.
Proof.
  destruct a as [x|], b as [y|]; simpl; try tauto.
  apply Q.max_lub_lt_iff.
Qed.

Lemma later_is_Some a b :
  (exists d, later a b = Some d) <->
  (exists x, a = Some x) /\ (exists y, b = Some y).
Proof.
  destruct a as [x|], b as [y|]; simpl; split;
    try (intros [? ?]; discriminate);
    try (intros [[? ?] [? ?]]; discriminate); eauto.
Qed.

(** A trial is over in time exactly when the child has exited and its
    standard error is closed in time. *)
Lemma trial_done_in_time p :
  exits_in_time (inject_Z TIMEOUT_SECONDS) (trial_done p) <->
  exits_in_time (inject_Z TIMEOUT_SECONDS) (lifetime p) /\
  exits_in_time (inject_Z TIMEOUT_SECONDS) (stderr_held p).
Proof.
  unfold trial_done. rewrite !later_in_time. simpl drained.
  assert (H0 : exits_in_time (inject_Z TIMEOUT_SECONDS) (Some 0%Q))
    by (simpl; reflexivity).
  tauto.
Qed.

End TimeFacts.

(* ===================================================================== *)
(** * Properties of the trial loop *)
(* ===================================================================== *)

Module TrialFacts.
Import StressTester Aggregator.

Lemma print_spec o w : print o w = (Return tt, printed w o).
Proof. reflexivity. Qed.

(** A trial whose child can be started returns, with the counters updated
    as [tally] says. *)
Lemma trial_observed users c w o :
  observe (children w) (wall_clock w) (launched w) (now w) = Some o ->
  trial users c w = (Return (tally c o), after_trial users w o).
Proof.
  unfold observe, trial, after_trial, waited, trial_call, trial_kills, bind,
    try_except, time_time, subprocess_run, after_launch, print, printed.
  destruct (children w (launched w)) as [|p]; try discriminate.
  fold (trial_done p).
  destruct (trial_done p) as [d|].
  - destruct (Qle_bool (inject_Z TIMEOUT_SECONDS) d).
    + intros [= <-]. reflexivity.
    + simpl. destruct (status p =? 0)%Z; intros [= <-]; reflexivity.
  - intros [= <-]. reflexivity.
Qed.

Lemma observe_can_start w :
  can_start (children w (launched w)) = true ->
  exists o, observe (children w) (wall_clock w) (launched w) (now w) = Some o.
Proof.
  unfold observe. destruct (children w (launched w)) as [|p];
    [discriminate|]; intros _.
  destruct (trial_done p) as [d|]; [|eauto].
  destruct (Qle_bool _ d); [eauto|]. destruct (status p =? 0)%Z; eauto.
Qed.

(** A trial whose child cannot be started raises [OSError]: no counter is
    returned and nothing is printed. *)
Lemma trial_cannot_start users c w :
  can_start (children w (launched w)) = false ->
  trial users c w = (Raise OSError, after_launch w 0 []).
Proof.
  unfold trial, bind, try_except, time_time, subprocess_run.
  destruct (children w (launched w)); [reflexivity|discriminate].
Qed.

Lemma spawnable_S w n :
  spawnable w (S n) =
  (can_start (children w (launched w)) &&
   forallb (fun k => can_start (children w k)) (seq (S (launched w)) n))%bool.
Proof. reflexivity. Qed.

(** The trial loop over children that can all be started: it returns, and
    its counters are the fold of [tally] over the observed outcomes. *)
Lemma trials_run users (xs : list Z) : forall c w,
  spawnable w (length xs) = true ->
  let os := observed (children w) (wall_clock w) (launched w) (now w)
                     (length xs) in
  exists w',
    for_each xs (fun _ c => trial users c) c w
      = (Return (fold_left tally os c), w') /\
    length os = length xs /\
    same_host w w' /\
    launched w' = (launched w + length xs)%nat /\
    calls w' = (calls w ++ map (fun k => trial_call users (environ w)
                                                    (children w k))
                               (seq (launched w) (length xs)))%list /\
    stdout w' = (stdout w ++ map (fun o => OutMark (mark_of o)) os)%list.
Proof.
  induction xs as [|x xs IH]; intros c w Hsp; simpl.
  - exists w. rewrite Nat.add_0_r, !app_nil_r.
    repeat split; reflexivity.
  - change (length (x :: xs)) with (S (length xs)) in Hsp.
    rewrite spawnable_S in Hsp. apply andb_prop in Hsp as [Hk Hrest].
    destruct (observe_can_start w Hk) as [o Ho]. rewrite Ho.
    destruct (IH (tally c o) (after_trial users w o) Hrest)
      as (w' & Hrun & Hlen & (H1 & H2 & H3 & H4 & H5 & H6) & Hl & Hc & Ho').
    exists w'. unfold bind. rewrite (trial_observed users c w o Ho).
    simpl in *. rewrite Hrun, Hlen, Hl, Hc, Ho', <- !app_assoc.
    split; [reflexivity|]. split; [reflexivity|].
    split; [repeat split; assumption|].
    split; [lia|]. split; reflexivity.
Qed.

(** The trial loop when some child cannot be started: [OSError] leaves the
    loop at the first such child, and no later child is launched. *)
Lemma trials_abort users (xs : list Z) : forall c w,
  spawnable w (length xs) = false ->
  exists w' j,
    for_each xs (fun _ c => trial users c) c w = (Raise OSError, w') /\
    (j < length xs)%nat /\
    can_start (children w (launched w + j)%nat) = false /\
    same_host w w' /\
    launched w' = (launched w + S j)%nat /\
    length (stdout w') = (length (stdout w) + j)%nat.
Proof.
  induction xs as [|x xs IH]; intros c w Hsp; simpl in *.
  - discriminate.
  - unfold bind. rewrite spawnable_S in Hsp.
    destruct (can_start (children w (launched w))) eqn:Hk.
    + simpl in Hsp. destruct (observe_can_start w Hk) as [o Ho].
      rewrite (trial_observed users c w o Ho).
      destruct (IH (tally c o) (after_trial users w o) Hsp)
        as (w' & j & Hrun & Hj & Hbad & (H1 & H2 & H3 & H4 & H5 & H6)
            & Hl & Hout).
      exists w', (S j). simpl in *.
      rewrite Hrun, Hl, Hout, length_app. simpl.
      replace (launched w + S j)%nat with (S (launched w + j)) by lia.
      split; [reflexivity|]. split; [lia|]. split; [assumption|].
      split; [repeat split; assumption|]. split; lia.
    + rewrite (trial_cannot_start users c w Hk).
      exists (after_launch w 0 []), 0%nat. simpl.
      rewrite Nat.add_0_r, Nat.add_1_r.
      split; [reflexivity|]. split; [lia|]. split; [assumption|].
      split; [repeat split|]. split; [reflexivity|lia].
Qed.

End TrialFacts.

(* ===================================================================== *)
(** * Properties of the aggregator *)
(* ===================================================================== *)

Module AggregatorFacts.
Import StressTester Aggregator.

Lemma count_cons p o os :
  count p (o :: os) = (if p o then 1 else 0) + count p os.
Proof.
  unfold count. cbn [List.filter]. destruct (p o); cbn [length]; lia.
Qed.

Lemma count_nonneg p os : 0 <= count p os.
Proof. unfold count. lia. Qed.


(** Every outcome is counted exactly once. *)
Lemma counts_partition os :
  count is_success os + count is_runtime_error os + count is_timeout os
  = Z.of_nat (length os).
Proof.
  induction os as [|o os IH]; [reflexivity|].
  rewrite !count_cons. cbn [length].
  destruct o; cbn [is_success is_runtime_error is_timeout]; lia.
Qed.

(** The counters after the loop, in closed form. *)
Lemma fold_tally os : forall c,
  fold_left tally os c =
  mkCounters (success_count c + count is_success os)
             (fail_count c + count is_runtime_error os)
             (deadlocks c + count is_timeout os)
             (fold_left PrimFloat.add (success_durations os) (avg_time c)).
Proof.
  induction os as [|o os IH]; intros [s f d a].
  - unfold count. simpl. rewrite !Z.add_0_r. reflexivity.
  - simpl fold_left at 1. rewrite IH, !count_cons.
    destruct o; cbn [tally is_success is_runtime_error is_timeout
      success_count fail_count deadlocks avg_time success_durations
      fold_left];
      f_equal; lia.
Qed.

(** The statements after the loop turn the folded counters into exactly
    the statistics the aggregator defines. *)
Lemma final_stats_aggregate users os :
  final_stats users (fold_left tally os (mkCounters 0 0 0 0%float))
  = aggregate users os.
Proof.
  rewrite fold_tally. unfold final_stats, aggregate, fsum.
  cbn [success_count fail_count deadlocks avg_time]. rewrite !Z.add_0_l.
  pose proof (count_nonneg is_success os) as Hs.
  destruct (Z.ltb_spec 0 (count is_success os)) as [Hpos|Hzero];
    destruct (Z.eqb_spec (count is_success os) 0) as [E|NE];
    try lia; reflexivity.
Qed.




Lemma success_durations_perm os os' :
  Permutation os os' ->
  Permutation (success_durations os) (success_durations os').
Proof.
  induction 1 as [|x l l' _ IH|x y l|l l' l'' _ IH1 _ IH2]; simpl.
  - constructor.
  - destruct x; auto.
  - destruct x, y; auto using Permutation_refl, perm_swap.
  - eapply perm_trans; eassumption.
Qed.

Lemma aggregate_total users os :
  total (aggregate users os) = Z.of_nat (length os).
Proof. unfold total, aggregate. simpl. apply counts_partition. Qed.

End AggregatorFacts.

(* ===================================================================== *)
(** * Properties of the scenario loop *)
(* ===================================================================== *)

Module BatteryFacts.
Import StressTester Aggregator TrialFacts AggregatorFacts.

Lemma length_range n : length (range n) = Z.to_nat n.
Proof. unfold range. rewrite List.length_map, List.length_seq. reflexivity. Qed.

Lemma spawnable_app w n m :
  spawnable w (n + m) =
  (spawnable w n &&
   forallb (fun k => can_start (children w k)) (seq (launched w + n) m))%bool.
Proof. unfold spawnable. rewrite seq_app, forallb_app. reflexivity. Qed.

Lemma spawnable_split w w1 n m :
  children w1 = children w ->
  launched w1 = (launched w + n)%nat ->
  spawnable w (n + m) = (spawnable w n && spawnable w1 m)%bool.
Proof.
  intros Hc Hl. unfold spawnable.
  rewrite seq_app, forallb_app, Hc, Hl. reflexivity.
Qed.

Lemma call_sig_trials users env (f : nat -> Child) ks :
  map call_sig (map (fun k => trial_call users env (f k)) ks)
  = repeat ([BINARY_NAME; str users], Some (inject_Z TIMEOUT_SECONDS))
           (length ks).
Proof.
  induction ks as [|k ks IH]; simpl; [reflexivity|].
  rewrite IH. reflexivity.
Qed.

(** One scenario over children that can all be started: the entry appended
    to the summary is the aggregate of the observed outcomes. *)
Lemma run_scenario_run runs sc summary w :
  spawnable w (Z.to_nat runs) = true ->
  exists w',
    run_scenario runs sc summary w
      = (Return (summary ++
                 [aggregate (users sc) (scenario_outcomes runs w)])%list, w') /\
    length (scenario_outcomes runs w) = Z.to_nat runs /\
    same_host w w' /\
    launched w' = (launched w + Z.to_nat runs)%nat /\
    calls w' = (calls w ++ scenario_calls runs sc w)%list.
Proof.
  intros Hsp. unfold run_scenario, scenario_outcomes, scenario_calls.
  unfold bind at 1. rewrite print_spec.
  unfold bind at 1. rewrite print_spec.
  set (w1 := printed (printed w _) _).
  assert (Hsp1 : spawnable w1 (length (range runs)) = true)
    by (rewrite length_range; exact Hsp).
  destruct (trials_run (users sc) (range runs) (mkCounters 0 0 0 0%float)
                       w1 Hsp1)
    as (w2 & Hrun & Hlen & (H1 & H2 & H3 & H4 & H5 & H6) & Hl & Hc & Ho).
  rewrite length_range in *.
  simpl in Hrun, Hlen, H1, H2, H3, H4, H5, H6, Hl, Hc.
  unfold bind at 1. rewrite Hrun.
  unfold bind at 1. rewrite print_spec. unfold ret.
  rewrite final_stats_aggregate.
  eexists. split; [reflexivity|]. simpl.
  repeat split; assumption.
Qed.

(** One scenario in which some child cannot be started: [OSError] leaves
    the scenario, and no entry is appended. *)
Lemma run_scenario_abort runs sc summary w :
  spawnable w (Z.to_nat runs) = false ->
  exists w' j,
    run_scenario runs sc summary w = (Raise OSError, w') /\
    (j < Z.to_nat runs)%nat /\
    can_start (children w (launched w + j)%nat) = false /\
    same_host w w' /\
    launched w' = (launched w + S j)%nat.
Proof.
  intros Hsp. unfold run_scenario.
  unfold bind at 1. rewrite print_spec.
  unfold bind at 1. rewrite print_spec.
  set (w1 := printed (printed w _) _).
  assert (Hsp1 : spawnable w1 (length (range runs)) = false)
    by (rewrite length_range; exact Hsp).
  destruct (trials_abort (users sc) (range runs) (mkCounters 0 0 0 0%float)
                         w1 Hsp1)
    as (w2 & j & Hrun & Hj & Hbad & (H1 & H2 & H3 & H4 & H5 & H6) & Hl & Ho).
  rewrite length_range in *. simpl in H1, H2, H3, H4, H5, H6, Hl.
  unfold bind at 1. rewrite Hrun.
  exists w2, j. repeat split; assumption.
Qed.

(** The battery over children that can all be started: one entry per
    scenario, in scenario order. *)
Lemma battery_run runs scenarios : forall summary w,
  spawnable w (length scenarios * Z.to_nat runs) = true ->
  exists entries new w',
    for_each scenarios (run_scenario runs) summary w
      = (Return (summary ++ entries)%list, w') /\
    Forall2 (entry_of runs) scenarios entries /\
    same_host w w' /\
    launched w' = (launched w + length scenarios * Z.to_nat runs)%nat /\
    calls w' = (calls w ++ new)%list /\
    map call_sig new
    = flat_map (fun sc => repeat ([BINARY_NAME; str (users sc)],
                                  Some (inject_Z TIMEOUT_SECONDS))
                                 (Z.to_nat runs)) scenarios.
Proof.
  induction scenarios as [|sc scs IH]; intros summary w Hsp.
  - exists [], [], w. simpl. rewrite !app_nil_r, Nat.add_0_r.
    repeat split; constructor.
  - cbn [length Nat.mul] in Hsp.
    destruct (spawnable w (Z.to_nat runs)) eqn:Hfirst.
    + destruct (run_scenario_run runs sc summary w Hfirst)
        as (w1 & Hrun & Hlen & (H1 & H2 & H3 & H4 & H5 & H6) & Hl & Hc).
      rewrite (spawnable_split w w1 _ _ H1 Hl), Hfirst in Hsp. simpl in Hsp.
      destruct (IH (summary ++ [aggregate (users sc) (scenario_outcomes runs w)])%list
                   w1 Hsp)
        as (entries & new & w' & Hrest & HF &
            (G1 & G2 & G3 & G4 & G5 & G6) & Gl & Gc & Gs).
      exists (aggregate (users sc) (scenario_outcomes runs w) :: entries),
             (scenario_calls runs sc w ++ new)%list, w'.
      cbn [for_each]. unfold bind at 1. rewrite Hrun, Hrest, <- app_assoc.
      split; [reflexivity|]. split.
      { constructor; [|exact HF]. eexists; split; [exact Hlen|reflexivity]. }
      split; [repeat split; congruence|].
      split; [rewrite Gl, Hl; cbn [length Nat.mul]; lia|].
      split; [rewrite Gc, Hc, <- app_assoc; reflexivity|].
      unfold scenario_calls.
      rewrite map_app, call_sig_trials, List.length_seq, Gs. reflexivity.
    + rewrite spawnable_app, Hfirst in Hsp. discriminate.
Qed.

Lemma battery_abort runs scenarios : forall summary w,
  spawnable w (length scenarios * Z.to_nat runs) = false ->
  exists w' j,
    for_each scenarios (run_scenario runs) summary w = (Raise OSError, w') /\
    (j < length scenarios * Z.to_nat runs)%nat /\
    can_start (children w (launched w + j)%nat) = false /\
    same_host w w' /\
    launched w' = (launched w + S j)%nat.
Proof.
  induction scenarios as [|sc scs IH]; intros summary w Hsp.
  - discriminate.
  - cbn [length Nat.mul for_each] in *. unfold bind at 1.
    destruct (spawnable w (Z.to_nat runs)) eqn:Hfirst.
    + destruct (run_scenario_run runs sc summary w Hfirst)
        as (w1 & Hrun & Hlen & (H1 & H2 & H3 & H4 & H5 & H6) & Hl & Hc).
      rewrite (spawnable_split w w1 _ _ H1 Hl), Hfirst in Hsp. simpl in Hsp.
      destruct (IH (summary ++ [aggregate (users sc) (scenario_outcomes runs w)])%list
                   w1 Hsp)
        as (w' & j & Hrest & Hj & Hbad & (G1 & G2 & G3 & G4 & G5 & G6) & Gl).
      exists w', (Z.to_nat runs + j)%nat. rewrite Hrun, Hrest.
      rewrite H1, Hl, <- Nat.add_assoc in Hbad.
      split; [reflexivity|]. split; [lia|]. split; [exact Hbad|].
      split; [repeat split; congruence|lia].
    + destruct (run_scenario_abort runs sc summary w Hfirst)
        as (w1 & j & Hrun & Hj & Hbad & Hh & Hl).
      exists w1, j. rewrite Hrun.
      split; [reflexivity|]. split; [lia|].
      split; [exact Hbad|]. split; assumption.
Qed.

Lemma entries_total runs scenarios entries :
  0 <= runs ->
  Forall2 (entry_of runs) scenarios entries ->
  Forall (fun s => total s = runs) entries.
Proof.
  intros Hruns. induction 1 as [|sc st scs sts (os & Hlen & ->) _ IH];
    constructor; [|exact IH].
  rewrite aggregate_total, Hlen. lia.
Qed.

Lemma entries_users runs scenarios entries :
  Forall2 (entry_of runs) scenarios entries ->
  map st_users entries = map users scenarios.
Proof.
  induction 1 as [|sc st scs sts (os & Hlen & ->) _ IH]; simpl;
    [reflexivity|]. rewrite IH. reflexivity.
Qed.

Lemma run_stress_test_unfold w :
  run_stress_test w
  = run_battery SCENARIOS NUM_RUNS
      (printed (printed w OutStart) OutTimeoutBanner).
Proof. reflexivity. Qed.

End BatteryFacts.

(* ===================================================================== *)
(** * The verdict of [print_report] *)
(* ===================================================================== *)

Module Verdict.
Import StressTester Aggregator TrialFacts.

(** The report loop returns, having and-ed [row_passes] over the rows. *)
Lemma report_rows summary : forall b w,
  exists w',
    for_each summary report_row b w
      = (Return (b && forallb row_passes summary)%bool, w') /\
    same_host w w' /\ launched w' = launched w /\ calls w' = calls w.
Proof.
  induction summary as [|item rest IH]; intros b w.
  - exists w. simpl. rewrite andb_true_r. repeat split.
  - cbn [for_each forallb]. unfold bind at 1, report_row at 1.
    unfold bind at 1. rewrite print_spec. unfold ret.
    set (w1 := printed w _).
    destruct (IH (if ((0 <? st_deadlocks item)%Z || (0 <? st_fails item)%Z)%bool
                  then false else b) w1)
      as (w' & Hrun & (H1 & H2 & H3 & H4 & H5 & H6) & Hl & Hc).
    exists w'. rewrite Hrun. unfold row_passes at 2.
    split.
    + destruct ((0 <? st_deadlocks item)%Z || (0 <? st_fails item)%Z)%bool;
        simpl; [rewrite andb_false_r|]; reflexivity.
    + repeat split; assumption.
Qed.

Lemma row_passes_clean item :
  counts_nonneg item -> (row_passes item = true <-> clean item).
Proof.
  intros (_ & Hf & Hd). unfold row_passes, clean.
  rewrite negb_true_iff, orb_false_iff, !Z.ltb_ge. lia.
Qed.

Lemma forallb_row_passes summary :
  Forall counts_nonneg summary ->
  (forallb row_passes summary = true <-> Forall clean summary).
Proof.
  induction 1 as [|item rest Hitem _ IH]; simpl.
  - split; [constructor|reflexivity].
  - rewrite andb_true_iff, IH, (row_passes_clean item Hitem).
    split; [intros [? ?]; constructor; assumption|].
    intros HF. inversion HF; subst. split; assumption.
Qed.

Lemma print_report_spec summary w :
  exists w',
    print_report summary w
      = (SysExit (if forallb row_passes summary then 0 else 1), w') /\
    stdout w' <> [] /\
    List.last (stdout w') OutBlank
      = (if forallb row_passes summary then OutApproved else OutReproved).
Proof.
  unfold print_report.
  do 3 (unfold bind at 1; rewrite print_spec).
  set (w1 := printed _ _).
  destruct (report_rows summary true w1) as (w2 & Hrun & _).
  unfold bind at 1. rewrite Hrun. simpl andb.
  unfold bind at 1. rewrite print_spec.
  destruct (forallb row_passes summary);
    (eexists; split; [reflexivity|]); simpl;
    (split; [intros E; apply app_eq_nil in E as [_ E]; discriminate
            | apply List.last_last]).
Qed.

(** C1.  The overall verdict is a pass exactly when every entry of the
    summary has no deadlock and no runtime error; [print_report] then ends
    the process with exit code 0, and with exit code 1 as soon as some entry
    has a deadlock or a runtime error. *)
Theorem verdict_iff_all_clean (summary : list Stats) (w : World) :
  Forall counts_nonneg summary ->
  exists b w',
    overall_pass summary w = Return b /\
    (b = true <-> Forall clean summary) /\
    print_report summary w = (SysExit (if b then 0 else 1), w') /\
    List.last (stdout w') OutBlank = (if b then OutApproved else OutReproved) /\
    (Forall clean summary ->
       exit_status (fst (print_report summary w)) = Some 0) /\
    (Exists (fun s => st_deadlocks s <> 0 \/ st_fails s <> 0) summary ->
       exit_status (fst (print_report summary w)) = Some 1).
Proof.
  intros Hwf.
  destruct (report_rows summary true w) as (w1 & Hloop & _).
  destruct (print_report_spec summary w) as (w' & Hrep & _ & Hlast).
  pose proof (forallb_row_passes summary Hwf) as Hiff.
  exists (forallb row_passes summary), w'.
  unfold overall_pass. rewrite Hloop, Hrep. simpl andb. simpl fst.
  split; [reflexivity|]. split; [exact Hiff|].
  split; [reflexivity|]. split; [exact Hlast|]. split.
  - intros Hall. apply Hiff in Hall. rewrite Hall. reflexivity.
  - intros Hex. destruct (forallb row_passes summary) eqn:E; [|reflexivity].
    exfalso. apply List.Exists_exists in Hex as (s & Hin & Hs).
    assert (Hc : Forall clean summary) by (apply Hiff; reflexivity).
    rewrite List.Forall_forall in Hc. destruct (Hc s Hin). tauto.
Qed.

(** C10.  Two summaries whose entries agree pairwise on [fails] and
    [deadlocks] get the same verdict and the same exit code, whatever their
    other fields and whatever was printed before. *)
Theorem verdict_depends_on_failures_only (s1 s2 : list Stats) (w1 w2 : World) :
  Forall2 (fun a b => st_fails a = st_fails b /\
                      st_deadlocks a = st_deadlocks b) s1 s2 ->
  overall_pass s1 w1 = overall_pass s2 w2 /\
  fst (print_report s1 w1) = fst (print_report s2 w2) /\
  exit_status (fst (print_report s1 w1))
  = exit_status (fst (print_report s2 w2)).
Proof.
  intros Hagree.
  assert (Hsame : forallb row_passes s1 = forallb row_passes s2).
  { induction Hagree as [|a b l1 l2 [Hf Hd] _ IH]; simpl; [reflexivity|].
    rewrite IH. unfold row_passes. rewrite Hf, Hd. reflexivity. }
  destruct (report_rows s1 true w1) as (w1' & Hl1 & _).
  destruct (report_rows s2 true w2) as (w2' & Hl2 & _).
  destruct (print_report_spec s1 w1) as (w1'' & Hr1 & _).
  destruct (print_report_spec s2 w2) as (w2'' & Hr2 & _).
  unfold overall_pass. rewrite Hl1, Hl2, Hr1, Hr2, Hsame.
  repeat split.
Qed.

End Verdict.

(* ===================================================================== *)
(** * Trials, counters and averages *)
(* ===================================================================== *)

Module Trials.
Import StressTester Aggregator TimeFacts TrialFacts AggregatorFacts
  BatteryFacts.

(** What the trial of a started child observes, by the time at which the
    child has exited and its standard error is closed. *)
Lemma observe_cases w p :
  children w (launched w) = Spawned p ->
  let t := inject_Z TIMEOUT_SECONDS in
  let in_time :=
    exits_in_time t (lifetime p) /\ exits_in_time t (stderr_held p) in
  (in_time -> status p = 0 ->
     exists d, trial_done p = Some d /\
       observe (children w) (wall_clock w) (launched w) (now w)
       = Some (Success (wall_clock w (now w + d)%Q - wall_clock w (now w))) /\
       waited (children w) (launched w) = d /\
       trial_kills (children w (launched w)) = false) /\
  (in_time -> status p <> 0 ->
     observe (children w) (wall_clock w) (launched w) (now w)
     = Some RuntimeError /\
     trial_kills (children w (launched w)) = false) /\
  (~ in_time ->
     observe (children w) (wall_clock w) (launched w) (now w)
     = Some TimeoutDeadlock /\
     waited (children w) (launched w) = t /\
     trial_kills (children w (launched w))
     = negb (exited_before t (lifetime p))).
Proof.
  intros Hchild t in_time. subst in_time.
  pose proof (trial_done_in_time p) as Hdone. fold t in Hdone.
  unfold observe, waited, trial_kills. rewrite Hchild. fold t.
  destruct (trial_done p) as [d|]; simpl in Hdone.
  - destruct (Qle_bool t d) eqn:E.
    + assert (Hno : ~ (d < t)%Q)
        by (apply Qle_not_lt, Qle_bool_iff; exact E).
      repeat split; try tauto.
    + apply Qle_bool_false in E.
      split; [|split].
      * intros _ ->. exists d. simpl. repeat split.
      * intros _ Hst. apply Z.eqb_neq in Hst. rewrite Hst. split; reflexivity.
      * tauto.
  - repeat split; tauto.
Qed.

(** C2.  A trial whose child was started is classified in exactly one way.
    [subprocess.run] is done with the child when the child has exited and
    its standard error, which the trial reads through a pipe, is closed.
    When that happens before the timeout, a child with status zero counts
    as a success and adds the measured elapsed time, the difference of two
    readings of the wall clock, to [avg_time], and a child with another
    status counts as a runtime error.  Otherwise the trial counts as a
    deadlock, and the child is killed if it is still running.  In each case
    the trial returns, one counter goes up by one, the others stay, and the
    mark of that case is printed. *)
Theorem trial_classified (users : Z) (c : Counters) (w : World)
    (p : Process) :
  children w (launched w) = Spawned p ->
  let t := inject_Z TIMEOUT_SECONDS in
  let in_time :=
    exits_in_time t (lifetime p) /\ exits_in_time t (stderr_held p) in
  let succeeded := in_time /\ status p = 0 in
  let failed := in_time /\ status p <> 0 in
  let timed_out := ~ in_time in
  let r := trial users c w in
  let w' := snd r in
  let killed := map call_killed (skipn (length (calls w)) (calls w')) in
  (succeeded ->
     fst r = Return (mkCounters (success_count c + 1) (fail_count c)
                                (deadlocks c)
                                (avg_time c + (wall_clock w (now w')
                                               - wall_clock w (now w)))%float)
     /\
     stdout w' = (stdout w ++ [OutMark "."])%list /\
     killed = [false] /\
     exists d, trial_done p = Some d /\ now w' = (now w + d)%Q) /\
  (failed ->
     fst r = Return (mkCounters (success_count c) (fail_count c + 1)
                                (deadlocks c) (avg_time c)) /\
     stdout w' = (stdout w ++ [OutMark "E"])%list /\
     killed = [false]) /\
  (timed_out ->
     fst r = Return (mkCounters (success_count c) (fail_count c)
                                (deadlocks c + 1) (avg_time c)) /\
     stdout w' = (stdout w ++ [OutMark "D"])%list /\
     killed = [negb (exited_before t (lifetime p))] /\
     now w' = (now w + t)%Q) /\
  ((succeeded /\ ~ failed /\ ~ timed_out) \/
   (~ succeeded /\ failed /\ ~ timed_out) \/
   (~ succeeded /\ ~ failed /\ timed_out)).
Proof.
  intros Hchild t in_time succeeded failed timed_out r w' killed.
  destruct (observe_cases w p Hchild) as (Hs & Hf & Ht).
  fold t in Hs, Hf, Ht. fold in_time in Hs, Hf, Ht.
  subst killed w' r succeeded failed timed_out.
  split; [|split; [|split]].
  - intros [Hin Hst]. destruct (Hs Hin Hst) as (d & Hd & Ho & Hw & Hk).
    rewrite (trial_observed users c w _ Ho). unfold after_trial, trial_call.
    cbn [fst snd now stdout calls tally mark_of]. rewrite Hw, Hk.
    rewrite drop_app_length.
    repeat split. exists d. split; [exact Hd|reflexivity].
  - intros [Hin Hst]. destruct (Hf Hin Hst) as (Ho & Hk).
    rewrite (trial_observed users c w _ Ho). unfold after_trial, trial_call.
    cbn [fst snd now stdout calls tally mark_of]. rewrite Hk.
    rewrite drop_app_length. repeat split.
  - intros Hout. destruct (Ht Hout) as (Ho & Hw & Hk).
    rewrite (trial_observed users c w _ Ho). unfold after_trial, trial_call.
    cbn [fst snd now stdout calls tally mark_of]. rewrite Hw, Hk.
    rewrite drop_app_length. repeat split.
  - assert (Hdec : in_time \/ ~ in_time).
    { subst in_time.
      destruct (exits_in_time_dec t (lifetime p));
        destruct (exits_in_time_dec t (stderr_held p)); tauto. }
    destruct Hdec as [Y|N]; [|tauto].
    destruct (Z.eq_dec (status p) 0); tauto.
Qed.

(** C2, as first stated, fails: a child that exits with status 0 after one
    second, but whose descendant keeps the standard error pipe open, is
    counted as a deadlock and marked [D], and it is not killed. *)
Lemma exited_child_counted_as_deadlock :
  children Hosts.orphan_host (launched Hosts.orphan_host)
  = Spawned Hosts.orphaning /\
  exits_in_time (inject_Z TIMEOUT_SECONDS) (lifetime Hosts.orphaning) /\
  status Hosts.orphaning = 0 /\
  fst (trial 2 (mkCounters 0 0 0 0%float) Hosts.orphan_host)
  = Return (mkCounters 0 0 1 0%float) /\
  stdout (snd (trial 2 (mkCounters 0 0 0 0%float) Hosts.orphan_host))
  = [OutMark "D"] /\
  map call_killed
      (calls (snd (trial 2 (mkCounters 0 0 0 0%float) Hosts.orphan_host)))
  = [false].
Proof. repeat split. Qed.

(** The trial loop over children that can all be started leaves counters
    that add up to the number of trials. *)
Lemma trial_loop_total users runs w :
  0 <= runs ->
  spawnable w (Z.to_nat runs) = true ->
  exists c w',
    for_each (range runs) (fun _ c => trial users c)
             (mkCounters 0 0 0 0%float) w = (Return c, w') /\
    success_count c + fail_count c + deadlocks c = runs.
Proof.
  intros Hruns Hsp.
  assert (Hsp1 : spawnable w (length (range runs)) = true)
    by (rewrite length_range; exact Hsp).
  destruct (trials_run users (range runs) (mkCounters 0 0 0 0%float) w Hsp1)
    as (w' & Hrun & Hlen & _).
  rewrite length_range in Hrun, Hlen.
  eexists; exists w'. split; [exact Hrun|].
  rewrite fold_tally. cbn [success_count fail_count deadlocks].
  rewrite !Z.add_0_l, counts_partition, Hlen. lia.
Qed.

(** A battery returns one entry per scenario, for that scenario's degree,
    whose counters add up to the number of trials. *)
Lemma battery_entries runs scenarios w :
  0 <= runs ->
  spawnable w (length scenarios * Z.to_nat runs) = true ->
  exists summary w',
    run_battery scenarios runs w = (Return summary, w') /\
    length summary = length scenarios /\
    Forall2 (fun sc s => st_users s = users sc /\ total s = runs)
            scenarios summary /\
    Forall (fun s => total s = runs) summary.
Proof.
  intros Hruns Hsp. unfold run_battery.
  destruct (battery_run runs scenarios [] w Hsp)
    as (entries & new & w' & Hrun & HF & _).
  exists entries, w'. split; [exact Hrun|].
  split; [symmetry; eapply Forall2_length; exact HF|].
  split; [|eapply entries_total; eassumption].
  clear Hrun Hsp. induction HF as [|sc st scs sts (os & Hlen & ->) _ IH];
    constructor; [|exact IH].
  split; [reflexivity|]. rewrite aggregate_total, Hlen. lia.
Qed.

(** C3.  After a scenario's trials, the three counters add up to the number
    of trials.  The built-in battery returns one entry for each of its
    scenarios, and the counters of each add up to [NUM_RUNS] = 30; a battery
    of [runs] trials per scenario returns one entry per scenario, for that
    scenario's degree, with counters adding up to [runs]; one scenario
    appends exactly one entry, with counters adding up to [runs], and its
    trial loop ends with counters adding up to [runs]; and the aggregator's
    counts add up to the length of the outcome sequence, whatever the
    outcomes are. *)
Theorem counters_sum_to_trial_count (w : World) :
  spawnable w (length SCENARIOS * Z.to_nat NUM_RUNS) = true ->
  (exists summary w',
     run_stress_test w = (Return summary, w') /\
     length summary = length SCENARIOS /\
     Forall2 (fun sc s => st_users s = users sc /\
                          st_success s + st_fails s + st_deadlocks s = 30)
             SCENARIOS summary /\
     Forall (fun s => st_success s + st_fails s + st_deadlocks s = 30)
            summary) /\
  (forall scenarios runs w0,
     0 <= runs ->
     spawnable w0 (length scenarios * Z.to_nat runs) = true ->
     exists summary w',
       run_battery scenarios runs w0 = (Return summary, w') /\
       length summary = length scenarios /\
       Forall2 (fun sc s => st_users s = users sc /\
                            st_success s + st_fails s + st_deadlocks s = runs)
               scenarios summary /\
       Forall (fun s => st_success s + st_fails s + st_deadlocks s = runs)
              summary) /\
  (forall sc runs summary0 w0,
     0 <= runs ->
     spawnable w0 (Z.to_nat runs) = true ->
     (exists st w',
        run_scenario runs sc summary0 w0
        = (Return (summary0 ++ [st])%list, w') /\
        st_users st = users sc /\
        st_success st + st_fails st + st_deadlocks st = runs) /\
     (exists c w',
        for_each (range runs) (fun _ c => trial (users sc) c)
                 (mkCounters 0 0 0 0%float) w0 = (Return c, w') /\
        success_count c + fail_count c + deadlocks c = runs)) /\
  (forall users outcomes,
     let s := aggregate users outcomes in
     st_success s + st_fails s + st_deadlocks s
     = Z.of_nat (length outcomes)).
Proof.
  intros Hsp.
  split; [|split; [|split]].
  - rewrite run_stress_test_unfold.
    apply (battery_entries NUM_RUNS SCENARIOS); [unfold NUM_RUNS; lia|].
    exact Hsp.
  - intros scenarios runs w0. apply battery_entries.
  - intros sc runs summary0 w0 Hruns Hsp0. split.
    + destruct (run_scenario_run runs sc summary0 w0 Hsp0)
        as (w' & Hrun & Hlen & _).
      eexists; exists w'. split; [exact Hrun|]. split; [reflexivity|].
      change (total (aggregate (users sc) (scenario_outcomes runs w0)) = runs).
      rewrite aggregate_total, Hlen. lia.
    + apply trial_loop_total; assumption.
  - intros users outcomes. apply aggregate_total.
Qed.

(** C6.  The stress test runs the built-in scenarios 2, 3, 10 and 50 in
    that order, 30 trials each with a timeout of 5 seconds, and its summary
    has exactly one entry per scenario in declaration order, whatever the
    outcomes and durations of the trials. *)
Theorem stress_test_battery_shape (w : World) :
  spawnable w (4 * 30) = true ->
  exists summary new w',
    run_stress_test w = (Return summary, w') /\
    map st_users summary = [2; 3; 10; 50] /\
    calls w' = (calls w ++ new)%list /\
    map call_sig new
    = (repeat (["./dining_hall"; "2"], Some (inject_Z 5)) 30 ++
       repeat (["./dining_hall"; "3"], Some (inject_Z 5)) 30 ++
       repeat (["./dining_hall"; "10"], Some (inject_Z 5)) 30 ++
       repeat (["./dining_hall"; "50"], Some (inject_Z 5)) 30)%list /\
    launched w' = (launched w + 120)%nat.
Proof.
  intros Hsp. rewrite run_stress_test_unfold. unfold run_battery.
  set (w1 := printed _ _).
  destruct (battery_run NUM_RUNS SCENARIOS [] w1 Hsp)
    as (entries & new & w' & Hrun & HF & _ & Hl & Hc & Hs).
  exists entries, new, w'. split; [exact Hrun|].
  split; [rewrite (entries_users _ _ _ HF); reflexivity|].
  split; [exact Hc|]. split; [|exact Hl].
  rewrite Hs. reflexivity.
Qed.







End Trials.

(* ===================================================================== *)
(** * Stopping on a missing executable *)
(* ===================================================================== *)

Module MissingExecutable.
Import StressTester Aggregator TrialFacts BatteryFacts Trials.

Lemma can_start_false c : can_start c = false <-> c = CannotSpawn.
Proof. destruct c; simpl; split; congruence. Qed.

(** C7.  A target that cannot be started is not a trial outcome: the trial
    raises [OSError] without returning counters or printing a mark, the
    exception leaves [run_stress_test] at the first such child, so that no
    later trial is launched and no summary exists, and the interpreter exits
    with status 1. *)
Theorem missing_executable_aborts (w : World) :
  spawnable w (4 * 30) = false ->
  (exists w' j,
     run_stress_test w = (Raise OSError, w') /\
     (j < 120)%nat /\
     children w (launched w + j)%nat = CannotSpawn /\
     launched w' = (launched w + S j)%nat) /\
  exit_status (fst (run_stress_test w)) = Some 1 /\
  (forall w0,
     check_compilation w0 = (Return tt, w) ->
     fst (main w0) = Raise OSError /\
     exit_status (fst (main w0)) = Some 1) /\
  (forall users c w0,
     children w0 (launched w0) = CannotSpawn ->
     exists w1,
       trial users c w0 = (Raise OSError, w1) /\
       stdout w1 = stdout w0 /\ calls w1 = calls w0).
Proof.
  intros Hsp. rewrite run_stress_test_unfold. unfold run_battery.
  set (w1 := printed _ _).
  destruct (battery_abort NUM_RUNS SCENARIOS [] w1 Hsp)
    as (w' & j & Hrun & Hj & Hbad & _ & Hl).
  apply can_start_false in Hbad.
  assert (Hrst : run_stress_test w = (Raise OSError, w'))
    by (rewrite run_stress_test_unfold; exact Hrun).
  split; [exists w', j; auto|].
  split; [rewrite Hrun; reflexivity|].
  split.
  - intros w0 Hcc.
    assert (Hmain : main w0 = (Raise OSError, w')).
    { unfold main, bind at 1. rewrite Hcc.
      unfold bind at 1. rewrite Hrst. reflexivity. }
    rewrite Hmain. split; reflexivity.
  - intros users c w0 Hc. exists (after_launch w0 0 []).
    rewrite trial_cannot_start by (apply can_start_false; exact Hc).
    simpl. rewrite app_nil_r. repeat split.
Qed.

End MissingExecutable.

(* ===================================================================== *)
(** * The trace driver *)
(* ===================================================================== *)

Module TraceFacts.
Import TraceGenerator TraceObservation Aggregator TimeFacts TrialFacts
  BatteryFacts.

Lemma list_ascii_append a b :
  list_ascii_of_string (a ++ b)
  = (list_ascii_of_string a ++ list_ascii_of_string b)%list.
Proof. induction a as [|c a IH]; simpl; [reflexivity|]. rewrite IH. reflexivity. Qed.

Lemma append_inv_tail x y s : (x ++ s = y ++ s)%string -> x = y.
Proof.
  intros H. apply (f_equal list_ascii_of_string) in H.
  rewrite !list_ascii_append in H. apply app_inv_tail in H.
  apply (f_equal string_of_list_ascii) in H.
  rewrite !string_of_list_ascii_of_string in H. exact H.
Qed.

Lemma append_inv_head s x y : (s ++ x = s ++ y)%string -> x = y.
Proof. induction s as [|c s IH]; simpl; [auto|]. intros [= H]. auto. Qed.

Lemma to_int_nonnil z :
  Z.to_int z <> Decimal.Pos Decimal.Nil /\ Z.to_int z <> Decimal.Neg Decimal.Nil.
Proof.
  destruct z as [|p|p]; simpl; split; try discriminate;
    intros [= H]; exact (Unsigned.to_uint_nonnil p H).
Qed.

(** [str] is injective: distinct integers print differently. *)
Lemma str_inj n m : str n = str m -> n = m.
Proof.
  unfold str. intros H.
  apply (f_equal NilZero.int_of_string) in H.
  destruct (to_int_nonnil n) as [Hn1 Hn2], (to_int_nonnil m) as [Hm1 Hm2].
  rewrite !NilZero.isi in H by assumption.
  injection H as H. apply (f_equal Z.of_int) in H.
  rewrite !DecimalZ.of_to in H. exact H.
Qed.

Lemma log_filename_spec n :
  log_filename n = "trace_logs/trace_" ++ str n ++ "_students.txt".
Proof. reflexivity. Qed.

Lemma log_filename_inj n m : log_filename n = log_filename m -> n = m.
Proof.
  rewrite !log_filename_spec. intros H.
  apply append_inv_head, append_inv_tail in H. apply str_inj. exact H.
Qed.

(** The world a trace scenario leaves behind when its child was started. *)
Lemma trace_scenario_spawned n w p :
  children w (launched w) = Spawned p ->
  trace_scenario n tt w
  = (Return tt,
     mkWorld (now w + trace_waited p)%Q (wall_clock w) (environ w) (on_path w)
             (fs w) (uncreatable w) (children w) (S (launched w))
             (calls w ++ [mkCall [BINARY_NAME; str n] Inherit Inherit
                                 (trace_env (environ w) n)
                                 (Some TRACE_TIMEOUT)
                                 (trace_kills p)])
             (stdout w ++ OutTraceRunning n (log_filename n)
                          :: trace_report n p)).
Proof.
  intros Hchild.
  unfold trace_scenario, bind, try_except, os_environ_copy, subprocess_run,
    after_launch, trace_report, trace_kills, trace_timed_out, trace_waited,
    trace_env, TRACE_TIMEOUT.
  rewrite print_spec. unfold printed.
  cbn [children launched now wall_clock environ on_path fs uncreatable calls
       stdout default].
  rewrite Hchild. fold (trace_done p).
  destruct (trace_done p) as [d|].
  - destruct (Qle_bool (inject_Z 10) d); simpl.
    + rewrite print_spec. unfold printed. simpl. rewrite <- app_assoc.
      reflexivity.
    + destruct (status p =? 0)%Z; simpl; rewrite ?print_spec;
        unfold printed, ret; simpl; rewrite <- ?app_assoc; reflexivity.
  - simpl. rewrite print_spec. unfold printed. simpl. rewrite <- app_assoc.
    reflexivity.
Qed.

(** The scenario loop over children that can all be started. *)
Lemma trace_loop (ns : list Z) : forall w,
  spawnable w (length ns) = true ->
  exists new w',
    for_each ns trace_scenario tt w = (Return tt, w') /\
    same_host w w' /\
    launched w' = (launched w + length ns)%nat /\
    calls w' = (calls w ++ new)%list /\
    map call_argv new = map (fun n => [BINARY_NAME; str n]) ns /\
    map call_env new = map (trace_env (environ w)) ns /\
    map call_timeout new = map (fun _ => Some TRACE_TIMEOUT) ns /\
    stdout w' = (stdout w ++ trace_outputs (children w) (launched w) ns)%list.
Proof.
  induction ns as [|n ns IH]; intros w Hsp.
  - exists [], w. simpl. rewrite Nat.add_0_r, !app_nil_r.
    repeat split.
  - change (length (n :: ns)) with (S (length ns)) in Hsp.
    rewrite spawnable_S in Hsp. apply andb_prop in Hsp as [Hk Hrest].
    destruct (children w (launched w)) as [|p] eqn:Hchild;
      [discriminate|].
    pose proof (trace_scenario_spawned n w p Hchild) as Hstep.
    set (w1 := mkWorld _ _ _ _ _ _ _ _ _ _) in Hstep.
    destruct (IH w1 Hrest)
      as (new & w' & Hrun & (H1 & H2 & H3 & H4 & H5 & H6) & Hl & Hc & Ha
          & He & Ht & Ho).
    simpl in H1, H2, H3, H4, H5, H6, Hl, Hc, He, Ho.
    eexists (_ :: new), w'.
    cbn [for_each]. unfold bind at 1. rewrite Hstep, Hrun.
    split; [reflexivity|].
    split; [repeat split; assumption|].
    split; [rewrite Hl; cbn [length]; lia|].
    split; [rewrite Hc, <- app_assoc; reflexivity|].
    cbn [map trace_outputs call_argv call_env call_timeout].
    rewrite Ha, He, Ht, Ho, Hchild, <- app_assoc.
    repeat split.
Qed.

(** [generate_traces] over children that can all be started. *)
Lemma generate_traces_run w :
  spawnable w 3 = true ->
  exists new w',
    generate_traces w = (Return tt, w') /\
    same_host w w' /\
    launched w' = (launched w + 3)%nat /\
    calls w' = (calls w ++ new)%list /\
    map call_argv new = map (fun n => [BINARY_NAME; str n]) SCENARIOS /\
    map call_env new = map (trace_env (environ w)) SCENARIOS /\
    stdout w' = (stdout w ++ [OutTraceGenerating] ++
                 trace_outputs (children w) (launched w) [2; 3; 10] ++
                 [OutTraceDone])%list.
Proof.
  intros Hsp. unfold generate_traces.
  unfold bind at 1. rewrite print_spec.
  set (w1 := printed _ _).
  destruct (trace_loop SCENARIOS w1 Hsp)
    as (new & w2 & Hrun & (H1 & H2 & H3 & H4 & H5 & H6) & Hl & Hc & Ha & He
        & Ht & Ho).
  unfold bind at 1. rewrite Hrun. rewrite print_spec.
  exists new. eexists. split; [reflexivity|]. simpl.
  split; [repeat split; assumption|].
  split; [exact Hl|]. split; [exact Hc|]. split; [exact Ha|].
  split; [exact He|]. rewrite Ho. simpl. rewrite <- !app_assoc. reflexivity.
Qed.

(** C8.  For the degrees 2, 3 and 10 the driver starts the target once
    each, in that order, with the log path of the degree in
    [DINING_LOG_FILE]; the path is a function of the degree that embeds it in
    the file name, so that distinct degrees get distinct paths; and the
    variable is set in a copy of the environment that only that child
    receives, [os.environ] itself staying as it was. *)
Theorem trace_log_paths (w : World) :
  spawnable w 3 = true ->
  exists new w',
    generate_traces w = (Return tt, w') /\
    calls w' = (calls w ++ new)%list /\
    map call_argv new
    = [["./dining_hall_logged"; "2"]; ["./dining_hall_logged"; "3"];
       ["./dining_hall_logged"; "10"]] /\
    map call_env new
    = map (fun n => <["DINING_LOG_FILE" := log_filename n]> (environ w))
          [2; 3; 10] /\
    map (fun c => call_env c !! "DINING_LOG_FILE") new
    = [Some "trace_logs/trace_2_students.txt";
       Some "trace_logs/trace_3_students.txt";
       Some "trace_logs/trace_10_students.txt"] /\
    environ w' = environ w /\
    (forall n, log_filename n
               = "trace_logs/trace_" ++ str n ++ "_students.txt") /\
    (forall n m, log_filename n = log_filename m -> n = m).
Proof.
  intros Hsp.
  destruct (generate_traces_run w Hsp)
    as (new & w' & Hrun & (H1 & H2 & H3 & H4 & H5 & H6) & Hl & Hc & Ha & He
        & Ho).
  exists new, w'. split; [exact Hrun|].
  split; [exact Hc|]. split; [exact Ha|]. split; [exact He|].
  split.
  - rewrite <- (map_map call_env (fun e : gmap string string =>
                                    e !! "DINING_LOG_FILE")), He.
    simpl. unfold trace_env. rewrite !lookup_insert_eq. reflexivity.
  - split; [exact H3|]. split; [exact log_filename_spec|].
    exact log_filename_inj.
Qed.

(** When the child of a trace scenario is over in time. *)
Lemma trace_done_in_time p :
  exits_in_time TRACE_TIMEOUT (trace_done p) <->
  exits_in_time TRACE_TIMEOUT (lifetime p).
Proof.
  unfold trace_done. rewrite !later_in_time. simpl drained.
  assert (H0 : exits_in_time TRACE_TIMEOUT (Some 0%Q))
    by (simpl; reflexivity).
  tauto.
Qed.

Lemma trace_timed_out_spec p :
  trace_timed_out p = false <-> exits_in_time TRACE_TIMEOUT (lifetime p).
Proof.
  rewrite <- trace_done_in_time. unfold trace_timed_out.
  destruct (trace_done p) as [d|]; simpl; [apply Qle_bool_false|].
  split; [discriminate|tauto].
Qed.

(** What the driver reports about a child, by how the child ended. *)
Lemma trace_report_cases n p :
  (~ exits_in_time TRACE_TIMEOUT (lifetime p) ->
     trace_report n p = [OutTraceTimeout n]) /\
  (exits_in_time TRACE_TIMEOUT (lifetime p) -> status p <> 0 ->
     trace_report n p = [OutTraceExecError n]) /\
  (exits_in_time TRACE_TIMEOUT (lifetime p) -> status p = 0 ->
     trace_report n p = []).
Proof.
  pose proof (trace_timed_out_spec p) as H. unfold trace_report.
  destruct (trace_timed_out p).
  - assert (Hno : ~ exits_in_time TRACE_TIMEOUT (lifetime p))
      by (intros E; apply H in E; discriminate).
    repeat split; intros; try reflexivity; contradiction.
  - assert (Hyes : exits_in_time TRACE_TIMEOUT (lifetime p))
      by (apply H; reflexivity).
    split; [intros; contradiction|]. split.
    + intros _ Hst. apply Z.eqb_neq in Hst. rewrite Hst. reflexivity.
    + intros _ ->. reflexivity.
Qed.

(** C5.  The outcome of a scenario never changes how the trace driver
    ends.  A scenario whose child is still running when the timeout elapses
    or exits with a nonzero status is reported, and the loop goes on to the
    next scenario; when each of the three scenarios has an outcome, that is,
    when its child was started, [generate_traces] launches all three, prints
    the closing line and returns, and the driver, once [setup] has handed
    over to it, exits with status 0, the same status for any other outcomes
    of the three scenarios. *)
Theorem trace_driver_exits_zero (w : World) :
  spawnable w 3 = true ->
  (exists w',
     generate_traces w = (Return tt, w') /\
     exit_status (fst (generate_traces w)) = Some 0 /\
     launched w' = (launched w + 3)%nat /\
     stdout w' = (stdout w ++ [OutTraceGenerating] ++
                  trace_outputs (children w) (launched w) [2; 3; 10] ++
                  [OutTraceDone])%list /\
     forall w0,
       setup w0 = (Return tt, w) ->
       TraceGenerator.main w0 = (Return tt, w') /\
       exit_status (fst (TraceGenerator.main w0)) = Some 0) /\
  (forall w2,
     spawnable w2 3 = true ->
     exit_status (fst (generate_traces w2))
     = exit_status (fst (generate_traces w))) /\
  (forall n w1 p,
     children w1 (launched w1) = Spawned p ->
     exists w2,
       trace_scenario n tt w1 = (Return tt, w2) /\
       launched w2 = S (launched w1) /\
       stdout w2 = (stdout w1 ++ OutTraceRunning n (log_filename n)
                              :: trace_report n p)%list /\
       (~ exits_in_time TRACE_TIMEOUT (lifetime p) ->
          trace_report n p = [OutTraceTimeout n]) /\
       (exits_in_time TRACE_TIMEOUT (lifetime p) -> status p <> 0 ->
          trace_report n p = [OutTraceExecError n]) /\
       (exits_in_time TRACE_TIMEOUT (lifetime p) -> status p = 0 ->
          trace_report n p = [])).
Proof.
  intros Hsp. split.
  - destruct (generate_traces_run w Hsp)
      as (new & w' & Hrun & _ & Hl & _ & _ & _ & Ho).
    exists w'. rewrite Hrun.
    split; [reflexivity|]. split; [reflexivity|].
    split; [exact Hl|]. split; [exact Ho|].
    intros w0 Hs.
    assert (Hmain : TraceGenerator.main w0 = (Return tt, w')).
    { unfold TraceGenerator.main, bind at 1. rewrite Hs. exact Hrun. }
    rewrite Hmain. split; reflexivity.
  - split.
    { intros w2 Hsp2.
      destruct (generate_traces_run w Hsp) as (new & w' & -> & _).
      destruct (generate_traces_run w2 Hsp2) as (new2 & w2' & -> & _).
      reflexivity. }
    intros n w1 p Hchild.
    eexists. split; [apply trace_scenario_spawned; exact Hchild|].
    split; [reflexivity|]. split; [reflexivity|].
    apply trace_report_cases.
Qed.

End TraceFacts.

(* ===================================================================== *)
(** * The build step of the stress tester *)
(* ===================================================================== *)

Module BuildFacts.
Import StressTester Aggregator Harness TrialFacts.

(** Every case of [check_compilation], by what the two children do. *)
Lemma check_compilation_cases w :
  let k := launched w in
  let r := check_compilation w in
  if bool_decide ("make" ∈ on_path w) then
    match children w k with
    | CannotSpawn => fst r = SysExit 1 /\ launched (snd r) = S k
    | Spawned p1 =>
        if is_some (lifetime p1) then
          launched (snd r) = S (S k) /\
          same_host w (snd r) /\
          match children w (S k) with
          | CannotSpawn => fst r = SysExit 1
          | Spawned p2 =>
              if (is_some (lifetime p2) && is_some (stdout_held p2) &&
                  is_some (stderr_held p2))%bool
              then fst r = (if (decodable p2 && (status p2 =? 0)%Z)%bool
                            then Return tt else SysExit 1)
              else fst r = Hang
          end
        else fst r = Hang /\ launched (snd r) = S k
    end
  else fst r = SysExit 1 /\
       snd r = printed (printed w OutSetupCompiling) OutMakeMissing.
Proof.
  cbv zeta.
  destruct (bool_decide ("make" ∈ on_path w)) eqn:Hb;
    [destruct (children w (launched w)) as [|[[d1|] s1 o1 e1 t1]] eqn:H1;
     [| destruct (children w (S (launched w)))
          as [|[[d2|] s2 [o2|] [e2|] [|]]] eqn:H2;
        try destruct (s2 =? 0)%Z eqn:Hs |] |];
    unfold check_compilation, bind, try_except, shutil_which, subprocess_run,
      print, printed, sys_exit, after_launch;
    cbn [now wall_clock environ on_path fs uncreatable children launched
         calls stdout fst snd];
    rewrite Hb; cbn -[Qplus Qmax]; rewrite ?H1; cbn -[Qplus Qmax];
    rewrite ?H2; cbn -[Qplus Qmax]; rewrite ?Hs; cbn -[Qplus Qmax];
    repeat split; reflexivity.
Qed.

(** The three ways [check_compilation] can end. *)
Lemma build_result_cases (w : World) :
  fst (check_compilation w) = Return tt \/
  fst (check_compilation w) = SysExit 1 \/
  fst (check_compilation w) = Hang.
Proof.
  pose proof (check_compilation_cases w) as H. cbv zeta in H.
  destruct (bool_decide ("make" ∈ on_path w)); [|tauto].
  destruct (children w (launched w)) as [|p1]; [tauto|].
  destruct (is_some (lifetime p1)); [|tauto].
  destruct H as (_ & _ & H).
  destruct (children w (S (launched w))) as [|p2]; [tauto|].
  destruct (is_some (lifetime p2) && is_some (stdout_held p2) &&
            is_some (stderr_held p2))%bool; [|tauto].
  destruct (decodable p2 && (status p2 =? 0)%Z)%bool; tauto.
Qed.


(** When [check_compilation] returns. *)
Lemma build_returns_iff (w : World) :
  fst (check_compilation w) = Return tt <-> build_succeeds w = true.
Proof.
  pose proof (check_compilation_cases w) as H. cbv zeta in H.
  unfold build_succeeds, terminates, builds.
  destruct (bool_decide ("make" ∈ on_path w)); cbn [andb].
  - destruct (children w (launched w)) as [|p1]; cbn [andb].
    + destruct H as [-> _]. split; discriminate.
    + destruct (is_some (lifetime p1)); cbn [andb].
      * destruct H as (_ & _ & H).
        destruct (children w (S (launched w))) as [|p2];
          [rewrite H; split; discriminate|].
        destruct (is_some (lifetime p2) && is_some (stdout_held p2) &&
                  is_some (stderr_held p2))%bool; cbn [andb]; rewrite H.
        -- destruct (decodable p2); cbn [andb]; [|split; discriminate].
           destruct (status p2 =? 0)%Z; split; try reflexivity; discriminate.
        -- split; discriminate.
      * destruct H as [-> _]. split; discriminate.
  - destruct H as [-> _]. split; discriminate.
Qed.

(** X2.  [check_compilation] returns exactly when [make] is on the search
    path, [make clean] exits, and [make] exits with status 0 after closing
    its two output pipes and writing nothing but text; the status of
    [make clean] plays no part.  It has then run just these two commands, in
    this order, without timeout and in the harness's own environment, the
    first with its output discarded and the second with its output piped. *)
Theorem check_compilation_returns_iff (w : World) :
  (fst (check_compilation w) = Return tt <-> build_succeeds w = true) /\
  (build_succeeds w = true ->
     calls (snd (check_compilation w))
     = (calls w ++ [mkCall ["make"; "clean"] DEVNULL DEVNULL (environ w)
                           None false;
                    mkCall ["make"] PIPE PIPE (environ w) None false])%list /\
     launched (snd (check_compilation w)) = S (S (launched w)) /\
     List.last (stdout (snd (check_compilation w))) OutBlank = OutCompileOk).
Proof.
  split; [apply build_returns_iff|].
  unfold build_succeeds, terminates, builds. intros Hb.
  apply andb_prop in Hb as [Hb H2]. apply andb_prop in Hb as [H0 H1].
  destruct (children w (launched w)) as [|[[d1|] s1 o1 e1 t1]] eqn:E1;
    try discriminate.
  destruct (children w (S (launched w)))
    as [|[[d2|] s2 [o2|] [e2|] [|]]] eqn:E2; try discriminate.
  cbn in H2.
  unfold check_compilation, bind, try_except, shutil_which, subprocess_run,
    print, printed, sys_exit, after_launch.
  cbn [now wall_clock environ on_path fs uncreatable children launched
       calls stdout fst snd].
  rewrite H0. cbn -[Qplus Qmax]. rewrite E1. cbn -[Qplus Qmax].
  rewrite E2. cbn -[Qplus Qmax]. rewrite H2. cbn -[Qplus Qmax].
  rewrite <- app_assoc.
  repeat split. apply List.last_last.
Qed.

(** X3.  Without [make] on the search path, [check_compilation] ends the
    process with status 1 before launching anything. *)
Theorem check_compilation_make_missing (w : World) :
  "make" ∉ on_path w ->
  fst (check_compilation w) = SysExit 1 /\
  launched (snd (check_compilation w)) = launched w /\
  calls (snd (check_compilation w)) = calls w /\
  stdout (snd (check_compilation w))
  = (stdout w ++ [OutSetupCompiling; OutMakeMissing])%list.
Proof.
  intros Hno. pose proof (check_compilation_cases w) as H. cbv zeta in H.
  rewrite bool_decide_eq_false_2 in H by exact Hno.
  destruct H as [H1 H2]. rewrite H1, H2. cbn. rewrite <- app_assoc.
  repeat split.
Qed.

(** X4.  When the build does not succeed, [main] stops where
    [check_compilation] stopped: no trial is launched, no report is printed,
    and the process ends with status 1 unless it is blocked on [make]. *)
Theorem build_failure_runs_no_trial (w : World) :
  build_succeeds w = false ->
  snd (main w) = snd (check_compilation w) /\
  (launched (snd (main w)) <= launched w + 2)%nat /\
  (exit_status (fst (main w)) = Some 1 \/ fst (main w) = Hang).
Proof.
  intros Hb.
  assert (Hne : fst (check_compilation w) <> Return tt).
  { intros E. apply (build_returns_iff w) in E.
    congruence. }
  pose proof (check_compilation_cases w) as Hc. cbv zeta in Hc.
  assert (Hl : (launched (snd (check_compilation w)) <= launched w + 2)%nat).
  { destruct (bool_decide ("make" ∈ on_path w)).
    - destruct (children w (launched w)) as [|p1];
        [destruct Hc as [? ?]; lia|].
      destruct (is_some (lifetime p1)); destruct Hc as [? ?]; lia.
    - destruct Hc as [_ ->]. cbn. lia. }
  pose proof (build_result_cases w) as Hr.
  assert (Hmain : main w
                  = (match fst (check_compilation w) with
                     | Return _ => Hang
                     | Raise e => Raise e
                     | SysExit c => SysExit c
                     | Hang => Hang
                     end, snd (check_compilation w))).
  { unfold main, bind.
    destruct (check_compilation w) as [[[]| | |] w1]; cbn in *;
      [congruence|reflexivity..]. }
  rewrite Hmain. cbn [fst snd].
  split; [reflexivity|]. split; [exact Hl|].
  destruct Hr as [Hr|[Hr|Hr]]; rewrite Hr; [|left|right]; try reflexivity.
  congruence.
Qed.

End BuildFacts.

(* ===================================================================== *)
(** * The stress tester from build to exit status *)
(* ===================================================================== *)

Module PipelineFacts.
Import StressTester Aggregator Harness TimeFacts TrialFacts AggregatorFacts
  BatteryFacts.
Import Verdict Trials BuildFacts.

Lemma positive_count_existsb p os :
  (0 <? count p os)%Z = existsb p os.
Proof.
  induction os as [|o os IH]; [reflexivity|].
  rewrite count_cons. cbn [existsb]. rewrite <- IH.
  pose proof (count_nonneg p os).
  destruct (p o); cbn [orb].
  - apply Z.ltb_lt. lia.
  - reflexivity.
Qed.

(** An entry passes the test of [print_report] exactly when all its
    outcomes are successes. *)
Lemma row_passes_aggregate users os :
  row_passes (aggregate users os) = forallb is_success os.
Proof.
  unfold row_passes, aggregate. cbn [st_deadlocks st_fails].
  rewrite !positive_count_existsb.
  induction os as [|o os IH]; [reflexivity|].
  cbn [existsb forallb]. rewrite <- IH.
  destruct o; cbn; try reflexivity.
  rewrite orb_true_r. reflexivity.
Qed.

(** The trial of a started child is over in time, as a boolean. *)
Lemma trial_done_before p :
  exited_before (inject_Z TIMEOUT_SECONDS) (trial_done p)
  = (exited_before (inject_Z TIMEOUT_SECONDS) (lifetime p) &&
     exited_before (inject_Z TIMEOUT_SECONDS) (stderr_held p))%bool.
Proof.
  apply eq_true_iff_eq.
  rewrite andb_true_iff, !exited_before_spec. apply trial_done_in_time.
Qed.

(** The kind of outcome a trial observes, by its child. *)
Lemma observe_kind ch wall k t0 o :
  observe ch wall k t0 = Some o ->
  is_success o = child_succeeds (ch k) /\
  is_timeout o = times_out (ch k) /\
  trial_kills (ch k) = outlives_timeout (ch k).
Proof.
  unfold observe, child_succeeds, times_out, trial_kills, outlives_timeout.
  destruct (ch k) as [|p]; [discriminate|].
  rewrite <- trial_done_before.
  pose proof (trial_done_before p) as Hb.
  destruct (trial_done p) as [d|]; cbn [exited_before] in *.
  - destruct (Qle_bool (inject_Z TIMEOUT_SECONDS) d); cbn [negb] in *.
    + intros [= <-]. repeat split.
    + symmetry in Hb. apply andb_prop in Hb as [Hl _]. rewrite Hl.
      destruct (status p =? 0)%Z; intros [= <-]; repeat split.
  - intros [= <-]. repeat split.
Qed.

Lemma observed_all_success ch wall : forall n k t0,
  forallb (fun i => can_start (ch i)) (seq k n) = true ->
  forallb is_success (observed ch wall k t0 n)
  = forallb (fun i => child_succeeds (ch i)) (seq k n).
Proof.
  induction n as [|n IH]; intros k t0 Hsp; [reflexivity|].
  cbn [seq forallb] in *. apply andb_prop in Hsp as [Hk Hrest].
  cbn [observed].
  destruct (observe ch wall k t0) as [o|] eqn:Ho.
  - destruct (observe_kind ch wall k t0 o Ho) as (Hs & _).
    cbn [forallb]. rewrite Hs, (IH _ _ Hrest). reflexivity.
  - unfold observe in Ho. destruct (ch k) as [|p]; [discriminate|].
    destruct (trial_done p) as [d|]; [|discriminate].
    destruct (Qle_bool _ d); [discriminate|].
    destruct (status p =? 0)%Z; discriminate.
Qed.

Lemma all_succeed_app w n m :
  all_succeed w (n + m) =
  (all_succeed w n &&
   forallb (fun k => child_succeeds (children w k))
           (seq (launched w + n) m))%bool.
Proof. unfold all_succeed. rewrite seq_app, forallb_app. reflexivity. Qed.

(** The battery over children that can all be started, with the verdict its
    entries will get. *)
Lemma battery_verdict runs scenarios : forall summary w,
  spawnable w (length scenarios * Z.to_nat runs) = true ->
  exists entries w',
    for_each scenarios (run_scenario runs) summary w
      = (Return (summary ++ entries)%list, w') /\
    forallb row_passes entries
    = all_succeed w (length scenarios * Z.to_nat runs) /\
    same_host w w' /\
    launched w' = (launched w + length scenarios * Z.to_nat runs)%nat.
Proof.
  induction scenarios as [|sc scs IH]; intros summary w Hsp.
  - exists [], w. cbn. rewrite app_nil_r, Nat.add_0_r. repeat split.
  - cbn [length Nat.mul] in *.
    rewrite spawnable_app in Hsp. apply andb_prop in Hsp as [Hfirst Hrest].
    destruct (run_scenario_run runs sc summary w Hfirst)
      as (w1 & Hrun & Hlen & (H1 & H2 & H3 & H4 & H5 & H6) & Hl & Hc).
    assert (Hsp1 : spawnable w1 (length scs * Z.to_nat runs) = true)
      by (unfold spawnable; rewrite H1, Hl; exact Hrest).
    destruct (IH (summary ++ [aggregate (users sc) (scenario_outcomes runs w)])%list
                 w1 Hsp1)
      as (entries & w' & Hrest' & Hv & (G1 & G2 & G3 & G4 & G5 & G6) & Gl).
    exists (aggregate (users sc) (scenario_outcomes runs w) :: entries), w'.
    cbn [for_each]. unfold bind at 1. rewrite Hrun, Hrest', <- app_assoc.
    split; [reflexivity|]. split.
    + cbn [forallb]. rewrite Hv, row_passes_aggregate, all_succeed_app.
      unfold scenario_outcomes.
      rewrite (observed_all_success _ _ _ _ _ Hfirst).
      unfold all_succeed. rewrite H1, Hl. reflexivity.
    + split; [repeat split; congruence|lia].
Qed.

Lemma check_compilation_success w :
  build_succeeds w = true ->
  exists w1,
    check_compilation w = (Return tt, w1) /\
    same_host w w1 /\ launched w1 = S (S (launched w)).
Proof.
  intros Hb. exists (snd (check_compilation w)).
  assert (Hl : launched (snd (check_compilation w)) = S (S (launched w)) /\
               same_host w (snd (check_compilation w))).
  { pose proof (check_compilation_cases w) as H. cbv zeta in H.
    unfold build_succeeds, terminates in Hb.
    destruct (bool_decide ("make" ∈ on_path w)); [|discriminate].
    destruct (children w (launched w)) as [|p1]; try discriminate.
    cbn [andb] in Hb.
    destruct (is_some (lifetime p1)); [|discriminate].
    split; apply H. }
  apply (build_returns_iff w) in Hb.
  split; [destruct (check_compilation w); cbn in *; congruence|].
  split; apply Hl.
Qed.

Lemma print_report_launches summary w :
  launched (snd (print_report summary w)) = launched w.
Proof.
  unfold print_report.
  do 3 (unfold bind at 1; rewrite print_spec).
  set (w1 := printed _ _).
  destruct (report_rows summary true w1) as (w2 & Hrun & _ & Hl & _).
  unfold bind at 1. rewrite Hrun.
  unfold bind at 1. rewrite print_spec.
  destruct (true && forallb row_passes summary)%bool; cbn; exact Hl.
Qed.

(** X5.  When the build succeeds and the 120 trials can be started, [main]
    ends with exit code 0 if every one of the 120 children exits with status
    0 and has its standard error closed before the trial's timeout, and with
    exit code 1 otherwise; it has then launched 122 programs. *)
Theorem stress_exit_status (w : World) :
  build_succeeds w = true ->
  forallb (fun k => can_start (children w k)) (seq (launched w + 2) 120)
  = true ->
  fst (main w)
  = SysExit (if forallb (fun k => child_succeeds (children w k))
                        (seq (launched w + 2) 120)
             then 0 else 1) /\
  launched (snd (main w)) = (launched w + 122)%nat.
Proof.
  intros Hb Hsp.
  destruct (check_compilation_success w Hb) as (w1 & Hcc & (H1 & _) & Hl1).
  set (w2 := printed (printed w1 OutStart) OutTimeoutBanner).
  assert (Hsp2 : spawnable w2 (length SCENARIOS * Z.to_nat NUM_RUNS) = true).
  { unfold spawnable. cbn [children launched w2 printed]. rewrite H1, Hl1.
    replace (S (S (launched w))) with (launched w + 2)%nat by lia.
    exact Hsp. }
  destruct (battery_verdict NUM_RUNS SCENARIOS [] w2 Hsp2)
    as (entries & w3 & Hrun & Hv & _ & Hl3).
  destruct (print_report_spec entries w3) as (w4 & Hrep & _).
  assert (Hw4 : launched w4 = launched w3).
  { pose proof (print_report_launches entries w3) as E.
    rewrite Hrep in E. exact E. }
  assert (Hmain : main w = (SysExit (if forallb row_passes entries
                                     then 0 else 1), w4)).
  { unfold main, bind at 1. rewrite Hcc.
    unfold bind at 1. rewrite run_stress_test_unfold.
    unfold run_battery. fold w2. rewrite Hrun. exact Hrep. }
  rewrite Hmain, Hv. cbn [fst snd]. split.
  - unfold all_succeed. cbn [children launched w2 printed]. rewrite H1, Hl1.
    replace (S (S (launched w))) with (launched w + 2)%nat by lia.
    reflexivity.
  - rewrite Hw4, Hl3. cbn [launched w2 printed]. rewrite Hl1.
    change (length SCENARIOS * Z.to_nat NUM_RUNS)%nat with 120%nat. lia.
Qed.

(** [run_stress_test] either returns a summary or lets [OSError] out; a
    trial never blocks it, since every trial has a timeout. *)
Lemma run_stress_test_outcomes w :
  (exists summary, fst (run_stress_test w) = Return summary) \/
  fst (run_stress_test w) = Raise OSError.
Proof.
  rewrite run_stress_test_unfold. unfold run_battery.
  set (w2 := printed _ _).
  destruct (spawnable w2 (length SCENARIOS * Z.to_nat NUM_RUNS)) eqn:Hsp.
  - destruct (battery_run NUM_RUNS SCENARIOS [] w2 Hsp)
      as (entries & new & w' & Hrun & _).
    left. exists entries. rewrite Hrun. reflexivity.
  - destruct (battery_abort NUM_RUNS SCENARIOS [] w2 Hsp)
      as (w' & j & Hrun & _).
    right. rewrite Hrun. reflexivity.
Qed.

(** X6.  [main] never falls off its end and never ends in another way than
    these: [sys.exit(0)], [sys.exit(1)], an uncaught [OSError] (status 1), or
    blocked for ever; and it can only be blocked by the build, never by a
    trial. *)
Theorem stress_main_outcomes (w : World) :
  (fst (main w) = SysExit 0 \/ fst (main w) = SysExit 1 \/
   fst (main w) = Raise OSError \/ fst (main w) = Hang) /\
  (fst (main w) = Hang -> fst (check_compilation w) = Hang) /\
  (exit_status (fst (main w)) = Some 0 \/
   exit_status (fst (main w)) = Some 1 \/
   exit_status (fst (main w)) = None).
Proof.
  assert (Hcases :
    (fst (main w) = SysExit 0 \/ fst (main w) = SysExit 1 \/
     fst (main w) = Raise OSError \/ fst (main w) = Hang) /\
    (fst (main w) = Hang -> fst (check_compilation w) = Hang)).
  { pose proof (build_result_cases w) as Hcc.
    unfold main, bind at 1 3 5 7 9.
    destruct (check_compilation w) as [rc w1]. cbn [fst] in Hcc.
    destruct Hcc as [-> | [-> | ->]]; cbn [fst]; [|tauto|tauto].
    pose proof (run_stress_test_outcomes w1) as Hrst.
    unfold bind.
    destruct (run_stress_test w1) as [rs w2]. cbn [fst] in Hrst.
    destruct Hrst as [[summary ->] | ->]; cbn [fst].
    - destruct (print_report_spec summary w2) as (w3 & -> & _). cbn [fst].
      destruct (forallb row_passes summary);
        (split; [tauto|discriminate]).
    - split; [tauto|discriminate]. }
  destruct Hcases as [Hc Hh]. split; [exact Hc|]. split; [exact Hh|].
  destruct Hc as [-> | [-> | [-> | ->]]]; cbn; tauto.
Qed.

Lemma report_rows_stdout summary : forall b w,
  snd (for_each summary report_row b w)
  = mkWorld (now w) (wall_clock w) (environ w) (on_path w) (fs w)
            (uncreatable w) (children w) (launched w) (calls w)
            (stdout w ++ map report_line summary).
Proof.
  induction summary as [|item rest IH]; intros b w.
  - cbn. rewrite app_nil_r. destruct w; reflexivity.
  - cbn [for_each map]. unfold bind at 1, report_row at 1.
    unfold bind at 1. rewrite print_spec. unfold ret.
    rewrite IH. unfold printed, report_line.
    cbn [now wall_clock environ on_path fs uncreatable children launched
         calls stdout].
    rewrite <- app_assoc.
    destruct (st_success item =? NUM_RUNS)%Z, (0 <? st_deadlocks item)%Z;
      reflexivity.
Qed.

(** X7.  [print_report] prints the title, the column header and a rule, then
    one row per summary entry, in the order of the summary, then a rule and
    the verdict; it launches nothing and the verdict line agrees with the
    exit code.  A row shows the degree, the number of successes in green
    when it is [NUM_RUNS] and in yellow otherwise, the number of deadlocks in
    red when it is positive and a green 0 otherwise, the number of failures,
    and the average with four decimals. *)
Theorem print_report_layout (summary : list Stats) (w : World) :
  let passed := forallb row_passes summary in
  print_report summary w
  = (SysExit (if passed then 0 else 1),
     mkWorld (now w) (wall_clock w) (environ w) (on_path w) (fs w)
             (uncreatable w) (children w) (launched w) (calls w)
             (stdout w ++ [OutReportTitle; OutReportHeader; OutRule] ++
              map report_line summary ++
              [OutRule; verdict_line passed])%list) /\
  (forall item,
     report_line item
     = OutReportRow (st_users item)
                    (if (st_success item =? 30)%Z then OKGREEN else WARNING,
                     st_success item)
                    (if (0 <? st_deadlocks item)%Z
                     then (FAIL, st_deadlocks item) else (OKGREEN, 0))
                    (st_fails item)
                    (format_4f (st_avg_time item))) /\
  format_4f 0%float = "0.0000" /\
  format_4f 0x1.4p-2%float = "0.3125" /\
  format_4f 0x1.8p+1%float = "3.0000".
Proof.
  cbv zeta. split; [|split; [reflexivity|repeat split; vm_compute; reflexivity]].
  unfold print_report.
  do 3 (unfold bind at 1; rewrite print_spec).
  set (w1 := printed _ _).
  pose proof (report_rows_stdout summary true w1) as Hw.
  destruct (report_rows summary true w1) as (w2 & Hrun & _).
  rewrite Hrun in Hw. cbn [snd] in Hw. subst w2.
  unfold bind at 1. rewrite Hrun. cbn [andb].
  unfold bind at 1. rewrite print_spec.
  unfold printed in *.
  cbn [now wall_clock environ on_path fs uncreatable children launched calls
       stdout w1].
  destruct (forallb row_passes summary); unfold bind, sys_exit;
    rewrite print_spec; unfold printed;
    cbn [now wall_clock environ on_path fs uncreatable children launched
         calls stdout verdict_line];
    rewrite <- !app_assoc; reflexivity.
Qed.

End PipelineFacts.

(* ===================================================================== *)
(** * What a scenario prints and records *)
(* ===================================================================== *)

Module ScenarioFacts.
Import StressTester Aggregator Harness TrialFacts AggregatorFacts BatteryFacts.
Import Trials PipelineFacts.

(** One scenario over children that can all be started, with everything it
    leaves behind. *)
Lemma run_scenario_full runs sc summary w :
  spawnable w (Z.to_nat runs) = true ->
  let os := scenario_outcomes runs w in
  exists w',
    run_scenario runs sc summary w
      = (Return (summary ++ [aggregate (users sc) os])%list, w') /\
    length os = Z.to_nat runs /\
    stdout w'
    = (stdout w ++ [OutScenarioHeader (users sc) (label sc); OutProgress] ++
       map (fun o => OutMark (mark_of o)) os ++ [OutBlank])%list /\
    calls w' = (calls w ++ scenario_calls runs sc w)%list.
Proof.
  intros Hsp. cbv zeta. unfold run_scenario, scenario_outcomes, scenario_calls.
  unfold bind at 1. rewrite print_spec.
  unfold bind at 1. rewrite print_spec.
  set (w1 := printed (printed w _) _).
  assert (Hsp1 : spawnable w1 (length (range runs)) = true)
    by (rewrite length_range; exact Hsp).
  destruct (trials_run (users sc) (range runs) (mkCounters 0 0 0 0%float)
                       w1 Hsp1)
    as (w2 & Hrun & Hlen & _ & _ & Hc & Ho).
  rewrite length_range in *. simpl in Hrun, Hlen, Hc, Ho.
  unfold bind at 1. rewrite Hrun.
  unfold bind at 1. rewrite print_spec. unfold ret.
  rewrite final_stats_aggregate.
  eexists. split; [reflexivity|].
  cbn [now wall_clock environ on_path fs uncreatable children launched calls
       stdout printed].
  split; [exact Hlen|]. split; [|exact Hc].
  rewrite Ho, <- !app_assoc. reflexivity.
Qed.

Lemma mark_counts os :
  mark_count "." (map mark_of os) = count is_success os /\
  mark_count "E" (map mark_of os) = count is_runtime_error os /\
  mark_count "D" (map mark_of os) = count is_timeout os.
Proof.
  induction os as [|o os (IH1 & IH2 & IH3)]; [repeat split|].
  rewrite !count_cons, <- IH1, <- IH2, <- IH3.
  unfold mark_count. destruct o; cbn [map mark_of List.filter String.eqb
    Ascii.eqb Bool.eqb andb is_success is_runtime_error is_timeout length];
    repeat split; lia.
Qed.

(** X8.  The progress line of a scenario shows one mark per trial, each of
    them ".", "E" or "D", between the scenario's header and a blank line;
    and the numbers of ".", "E" and "D" marks are the [success], [fails] and
    [deadlocks] counts of the scenario's summary entry. *)
Theorem progress_marks_match_counts (runs : Z) (sc : Scenario)
    (summary : list Stats) (w : World) :
  spawnable w (Z.to_nat runs) = true ->
  exists st marks w',
    run_scenario runs sc summary w = (Return (summary ++ [st])%list, w') /\
    stdout w'
    = (stdout w ++ [OutScenarioHeader (users sc) (label sc); OutProgress] ++
       map OutMark marks ++ [OutBlank])%list /\
    length marks = Z.to_nat runs /\
    Forall (fun m => m = "." \/ m = "E" \/ m = "D") marks /\
    mark_count "." marks = st_success st /\
    mark_count "E" marks = st_fails st /\
    mark_count "D" marks = st_deadlocks st.
Proof.
  intros Hsp.
  destruct (run_scenario_full runs sc summary w Hsp)
    as (w' & Hrun & Hlen & Hout & _).
  set (os := scenario_outcomes runs w) in *.
  exists (aggregate (users sc) os), (map mark_of os), w'.
  split; [exact Hrun|].
  split; [rewrite Hout, map_map; reflexivity|].
  split; [rewrite List.length_map; exact Hlen|].
  split.
  - apply List.Forall_forall. intros m Hm. apply in_map_iff in Hm as (o & <- & _).
    destruct o; cbn; tauto.
  - exact (mark_counts os).
Qed.

(** The trials that end in a timeout, and the children that are killed, by
    child. *)
Lemma observed_timeouts ch wall : forall n k t0,
  forallb (fun i => can_start (ch i)) (seq k n) = true ->
  count is_timeout (observed ch wall k t0 n)
  = Z.of_nat (length (List.filter (fun i => times_out (ch i)) (seq k n))) /\
  map (fun i => trial_kills (ch i)) (seq k n)
  = map (fun i => outlives_timeout (ch i)) (seq k n).
Proof.
  induction n as [|n IH]; intros k t0 Hsp; [split; reflexivity|].
  cbn [seq forallb] in Hsp. apply andb_prop in Hsp as [Hk Hrest].
  cbn [observed seq List.filter map].
  destruct (observe ch wall k t0) as [o|] eqn:Ho.
  - destruct (observe_kind ch wall k t0 o Ho) as (_ & Ht & Hkill).
    destruct (IH (S k) (t0 + waited ch k)%Q Hrest) as (IH1 & IH2).
    rewrite count_cons, IH1, Ht, Hkill, IH2. split; [|reflexivity].
    destruct (times_out (ch k)); cbn [length]; lia.
  - unfold observe in Ho. destruct (ch k) as [|p]; [discriminate|].
    destruct (trial_done p) as [d|]; [|discriminate].
    destruct (Qle_bool _ d); [discriminate|].
    destruct (status p =? 0)%Z; discriminate.
Qed.

(** A child that is still running at the timeout times out. *)
Lemma outlives_times_out c :
  outlives_timeout c = true -> times_out c = true.
Proof.
  destruct c as [|p]; cbn; [discriminate|].
  destruct (exited_before _ (lifetime p)); [discriminate|reflexivity].
Qed.

Lemma filter_length_le {A} (f g : A -> bool) l :
  (forall x, f x = true -> g x = true) ->
  (length (List.filter f l) <= length (List.filter g l))%nat.
Proof.
  intros Hfg. induction l as [|x l IH]; [reflexivity|].
  cbn [List.filter]. specialize (Hfg x).
  destruct (f x), (g x); cbn [length]; try lia.
Qed.

Lemma filter_length_eq {A} (f g : A -> bool) l :
  Forall (fun x => f x = g x) l ->
  length (List.filter f l) = length (List.filter g l).
Proof.
  induction 1 as [|x l Hx _ IH]; [reflexivity|].
  cbn [List.filter]. rewrite Hx. destruct (g x); cbn [length]; lia.
Qed.

Lemma filter_map_length {A B} (f : B -> bool) (g : A -> B) l :
  length (List.filter f (map g l))
  = length (List.filter (fun x => f (g x)) l).
Proof.
  induction l as [|x l IH]; [reflexivity|]. cbn [map List.filter].
  destruct (f (g x)); cbn [length]; rewrite IH; reflexivity.
Qed.

(** A child is killed exactly when it is still running as the timeout
    elapses. *)
Lemma trial_kills_spec c : trial_kills c = outlives_timeout c.
Proof.
  destruct c as [|p]; [reflexivity|].
  unfold trial_kills, outlives_timeout.
  pose proof (trial_done_before p) as H.
  destruct (trial_done p) as [d|]; cbn [exited_before] in H; [|reflexivity].
  destruct (Qle_bool (inject_Z TIMEOUT_SECONDS) d); cbn [negb] in H;
    [reflexivity|].
  symmetry in H. apply andb_prop in H as [Hl _]. rewrite Hl. reflexivity.
Qed.

(** X9.  Every child of a scenario is run with the scenario's degree as
    sole argument, its output discarded, its standard error piped, the
    timeout, and the harness's own environment.  A child is killed exactly
    when it is still running as the timeout elapses, so the children killed
    are at most as many as the deadlocks counted, and exactly as many when
    every child that times out is still running then. *)
Theorem killed_children_match_deadlocks (runs : Z) (sc : Scenario)
    (summary : list Stats) (w : World) :
  spawnable w (Z.to_nat runs) = true ->
  exists st new w',
    run_scenario runs sc summary w = (Return (summary ++ [st])%list, w') /\
    calls w' = (calls w ++ new)%list /\
    length new = Z.to_nat runs /\
    Forall (fun c => call_argv c = [BINARY_NAME; str (users sc)] /\
                     call_stdout c = DEVNULL /\ call_stderr c = PIPE /\
                     call_env c = environ w /\
                     call_timeout c = Some (inject_Z TIMEOUT_SECONDS)) new /\
    map call_killed new
    = map (fun k => outlives_timeout (children w k))
          (seq (launched w) (Z.to_nat runs)) /\
    st_deadlocks st
    = Z.of_nat (length (List.filter (fun k => times_out (children w k))
                                    (seq (launched w) (Z.to_nat runs)))) /\
    killed_count new <= st_deadlocks st /\
    (Forall (fun k => times_out (children w k)
                      = outlives_timeout (children w k))
            (seq (launched w) (Z.to_nat runs)) ->
     killed_count new = st_deadlocks st).
Proof.
  intros Hsp.
  destruct (run_scenario_full runs sc summary w Hsp)
    as (w' & Hrun & Hlen & _ & Hc).
  destruct (observed_timeouts (children w) (wall_clock w) (Z.to_nat runs)
              (launched w) (now w) Hsp) as (Hdead & Hkill).
  fold (scenario_outcomes runs w) in Hdead.
  set (os := scenario_outcomes runs w) in *.
  set (ks := seq (launched w) (Z.to_nat runs)) in *.
  assert (Hk : map call_killed (scenario_calls runs sc w)
               = map (fun k => outlives_timeout (children w k)) ks).
  { unfold scenario_calls. rewrite map_map. exact Hkill. }
  assert (Hcount : killed_count (scenario_calls runs sc w)
                   = Z.of_nat (length (List.filter
                                         (fun k => outlives_timeout
                                                     (children w k)) ks))).
  { unfold killed_count, scenario_calls. fold ks. f_equal.
    rewrite filter_map_length. apply filter_length_eq.
    apply List.Forall_forall. intros k _. apply trial_kills_spec. }
  exists (aggregate (users sc) os), (scenario_calls runs sc w), w'.
  split; [exact Hrun|]. split; [exact Hc|].
  split; [unfold scenario_calls; rewrite List.length_map, List.length_seq;
          reflexivity|].
  split.
  { apply List.Forall_forall. intros c Hin. unfold scenario_calls in Hin.
    apply in_map_iff in Hin as (k & <- & _). repeat split. }
  split; [exact Hk|].
  change (st_deadlocks (aggregate (users sc) os)) with (count is_timeout os).
  split; [exact Hdead|]. rewrite Hcount, Hdead. split.
  - apply inj_le, filter_length_le. intros k. apply outlives_times_out.
  - intros Hall. f_equal. symmetry. apply filter_length_eq. exact Hall.
Qed.

Lemma entries_bounded runs scenarios entries :
  0 <= runs ->
  Forall2 (entry_of runs) scenarios entries ->
  Forall (fun s => counts_nonneg s /\ st_success s <= runs /\
                   st_fails s <= runs /\ st_deadlocks s <= runs) entries.
Proof.
  intros Hruns. induction 1 as [|sc st scs sts (os & Hlen & ->) _ IH];
    constructor; [|exact IH].
  pose proof (aggregate_total (users sc) os) as Ht.
  unfold total, aggregate in Ht. cbn [st_success st_fails st_deadlocks] in Ht.
  unfold counts_nonneg, aggregate. cbn [st_success st_fails st_deadlocks].
  pose proof (count_nonneg is_success os).
  pose proof (count_nonneg is_runtime_error os).
  pose proof (count_nonneg is_timeout os).
  lia.
Qed.

(** X10.  Every count of every entry of a summary the battery returns lies
    between 0 and the number of trials per scenario. *)
Theorem summary_counts_bounded (scenarios : list Scenario) (runs : Z)
    (w : World) :
  0 <= runs ->
  spawnable w (length scenarios * Z.to_nat runs) = true ->
  exists summary w',
    run_battery scenarios runs w = (Return summary, w') /\
    length summary = length scenarios /\
    Forall (fun s => 0 <= st_success s <= runs /\
                     0 <= st_fails s <= runs /\
                     0 <= st_deadlocks s <= runs) summary.
Proof.
  intros Hruns Hsp. unfold run_battery.
  destruct (battery_run runs scenarios [] w Hsp)
    as (entries & new & w' & Hrun & HF & _).
  exists entries, w'. split; [exact Hrun|].
  split; [symmetry; eapply Forall2_length; exact HF|].
  eapply List.Forall_impl;
    [|exact (entries_bounded runs scenarios entries Hruns HF)].
  intros s ((H1 & H2 & H3) & H4 & H5 & H6). cbn beta. lia.
Qed.

End ScenarioFacts.

(* ===================================================================== *)
(** * The trace driver beyond its scenario loop *)
(* ===================================================================== *)

Module TraceDriverFacts.
Import TraceGenerator TraceObservation Aggregator Harness TrialFacts.
Import BatteryFacts TraceFacts.

(** [setup] as one equation: when the output directory is absent and cannot
    be created, [os.makedirs] raises before anything is launched; otherwise
    the directory is created when absent, and [gcc] decides. *)
Lemma setup_spec w :
  setup w
  = if dir_ready w then
      match subprocess_run ["gcc"; "-Wall"; "-pthread"; "-O2"; "-o";
                            BINARY_NAME; SOURCE_FILE]
                           Inherit Inherit false None None false
              (mkWorld (now w) (wall_clock w) (environ w) (on_path w)
                       (if bool_decide (OUTPUT_DIR ∈ fs w) then fs w
                        else {[OUTPUT_DIR]} ∪ fs w)
                       (uncreatable w) (children w) (launched w) (calls w)
                       (stdout w ++ [OutTracePreparing])) with
      | (Return returncode, w2) =>
          if negb (returncode =? 0)%Z
          then (SysExit 1, printed w2 OutTraceCompileError)
          else (Return tt, w2)
      | (Raise e, w2) => (Raise e, w2)
      | (SysExit c, w2) => (SysExit c, w2)
      | (Hang, w2) => (Hang, w2)
      end
    else (Raise OSError, printed w OutTracePreparing).
Proof.
  unfold setup, dir_ready, bind at 1. rewrite print_spec.
  unfold bind at 1, os_path_exists at 1.
  cbn [now wall_clock environ on_path fs uncreatable children launched calls
       stdout printed].
  destruct (bool_decide (OUTPUT_DIR ∈ fs w)) eqn:Hfs; cbn [negb orb].
  - unfold bind, ret, subprocess_run, after_launch, print, printed, sys_exit.
    cbn [now wall_clock environ on_path fs uncreatable children launched
         calls stdout].
    destruct (children w (launched w)) as [|[[d|] s o e t]];
      cbn -[Qplus Qmax]; try reflexivity.
    destruct (s =? 0)%Z; reflexivity.
  - unfold bind at 1, os_makedirs at 1, printed.
    cbn [now wall_clock environ on_path fs uncreatable children launched
         calls stdout].
    rewrite Hfs. cbn [orb].
    destruct (bool_decide (OUTPUT_DIR ∈ uncreatable w)); cbn [negb];
      [reflexivity|].
    unfold bind, ret, subprocess_run, after_launch, print, printed, sys_exit.
    cbn [now wall_clock environ on_path fs uncreatable children launched
         calls stdout].
    destruct (children w (launched w)) as [|[[d|] s o e t]];
      cbn -[Qplus Qmax]; try reflexivity.
    destruct (s =? 0)%Z; reflexivity.
Qed.



(** X12.  When the output directory is absent and cannot be created,
    [setup] ends with the uncaught [OSError] of [os.makedirs] and launches
    nothing.  Otherwise it launches exactly one program, the compiler,
    without timeout: it returns exactly when [gcc] exits with status 0; a
    [gcc] that cannot be started is not caught and leaves [setup] as
    [OSError]; any other status ends the process with [sys.exit(1)]; and a
    [gcc] that never exits blocks it. *)
Theorem setup_outcome (w : World) :
  let c := children w (launched w) in
  (dir_ready w = false ->
     fst (setup w) = Raise OSError /\
     launched (snd (setup w)) = launched w /\
     calls (snd (setup w)) = calls w) /\
  (dir_ready w = true ->
     launched (snd (setup w)) = S (launched w) /\
     (fst (setup w) = Return tt <-> exits_zero c = true) /\
     (fst (setup w) = Raise OSError <-> c = CannotSpawn) /\
     (fst (setup w) = Hang <-> never_exits c = true) /\
     (fst (setup w) = SysExit 1 <->
        terminates c = true /\ exits_zero c = false) /\
     (c <> CannotSpawn ->
        map call_argv (skipn (length (calls w)) (calls (snd (setup w))))
        = [["gcc"; "-Wall"; "-pthread"; "-O2"; "-o"; "./dining_hall_logged";
            "dining_hall_logged.c"]] /\
        map call_timeout (skipn (length (calls w)) (calls (snd (setup w))))
        = [None])) /\
  (fst (setup w) = Raise OSError <-> dir_ready w = false \/ c = CannotSpawn).
Proof.
  cbv zeta. rewrite setup_spec.
  destruct (dir_ready w).
  2:{ split; [intros _; repeat split|]. split; [discriminate|].
      split; [intros _; left; reflexivity|reflexivity]. }
  split; [discriminate|].
  unfold subprocess_run, after_launch, exits_zero, never_exits, terminates,
    printed.
  cbn [now wall_clock environ on_path fs uncreatable children launched calls
       stdout].
  destruct (children w (launched w)) as [|[[d|] s o e t]];
    cbn -[Qplus Qmax].
  - split; [intros _|split; [intros _; right; reflexivity|reflexivity]].
    split; [reflexivity|]. split; [split; discriminate|].
    split; [tauto|]. split; [split; discriminate|].
    split; [split; [discriminate|intros [? _]; discriminate]|].
    intros H; contradiction.
  - destruct (Z.eqb_spec s 0) as [->|Hs]; cbn -[Qplus Qmax];
      rewrite ?drop_app_length;
      (split; [intros _|
               split; [discriminate|intros [?|?]; discriminate]]);
      (split; [reflexivity|]).
    + split; [tauto|]. split; [split; discriminate|].
      split; [split; discriminate|].
      split; [|intros _; split; reflexivity].
      split; [discriminate|]. intros [_ ?]. discriminate.
    + split; [split; discriminate|]. split; [split; discriminate|].
      split; [split; discriminate|].
      split; [|intros _; split; reflexivity].
      split; [intros _; split; reflexivity|reflexivity].
  - rewrite ?drop_app_length.
    split; [intros _|split; [discriminate|intros [?|?]; discriminate]].
    split; [reflexivity|].
    split; [split; discriminate|]. split; [split; discriminate|].
    split; [split; reflexivity|].
    split; [|intros _; split; reflexivity].
    split; [discriminate|intros [? _]; discriminate].
Qed.

(** The scenario loop when some child cannot be started: [OSError] leaves
    the loop at the first such child. *)
Lemma trace_loop_abort (ns : list Z) : forall w,
  spawnable w (length ns) = false ->
  exists w' j,
    for_each ns trace_scenario tt w = (Raise OSError, w') /\
    (j < length ns)%nat /\
    children w (launched w + j)%nat = CannotSpawn /\
    launched w' = (launched w + S j)%nat /\
    length (calls w') = (length (calls w) + j)%nat /\
    stdout w' = (stdout w ++ trace_outputs (children w) (launched w) ns)%list /\
    List.last (stdout w') OutBlank
    = OutTraceRunning (nth j ns 0) (log_filename (nth j ns 0)).
Proof.
  induction ns as [|n ns IH]; intros w Hsp; [discriminate|].
  change (length (n :: ns)) with (S (length ns)) in *.
  rewrite spawnable_S in Hsp.
  destruct (children w (launched w)) as [|p] eqn:Hchild.
  - exists (after_launch (printed w (OutTraceRunning n (log_filename n)))
                         0 []), 0%nat.
    cbn [for_each]. unfold bind at 1.
    assert (Hstep : trace_scenario n tt w
              = (Raise OSError,
                 after_launch
                   (printed w (OutTraceRunning n (log_filename n))) 0 [])).
    { unfold trace_scenario, bind, try_except, os_environ_copy,
        subprocess_run.
      rewrite print_spec.
      cbn [now wall_clock environ on_path fs uncreatable children launched
           calls stdout printed].
      rewrite Hchild. reflexivity. }
    rewrite Hstep. cbn [trace_outputs]. rewrite Hchild.
    cbn -[Qplus]. rewrite !Nat.add_0_r, app_nil_r, Nat.add_1_r.
    repeat split; try assumption; try lia. apply List.last_last.
  - cbn [can_start andb] in Hsp.
    pose proof (trace_scenario_spawned n w p Hchild) as Hstep.
    set (w1 := mkWorld _ _ _ _ _ _ _ _ _ _) in Hstep.
    destruct (IH w1 Hsp)
      as (w' & j & Hrun & Hj & Hbad & Hl & Hc & Ho & Hlast).
    cbn [now wall_clock environ on_path fs uncreatable children launched
         calls stdout w1] in Hbad, Hl, Hc, Ho.
    exists w', (S j). cbn [for_each]. unfold bind at 1.
    rewrite Hstep, Hrun. cbn [trace_outputs nth]. rewrite Hchild.
    rewrite Hlast, Hl, Hc, Ho, length_app, <- app_assoc. cbn [length].
    replace (launched w + S j)%nat with (S (launched w + j)) by lia.
    repeat split; try assumption; try lia.
Qed.

(** [generate_traces] when some target cannot be started. *)
Lemma generate_traces_abort (w : World) :
  spawnable w 3 = false ->
  exists w', generate_traces w = (Raise OSError, w').
Proof.
  intros Hsp. unfold generate_traces. unfold bind at 1. rewrite print_spec.
  set (w1 := printed _ _).
  destruct (trace_loop_abort SCENARIOS w1 Hsp) as (w' & j & Hrun & _).
  unfold bind. rewrite Hrun. exists w'. reflexivity.
Qed.

End TraceDriverFacts.

(* ===================================================================== *)
(** * The exit status of the trace driver *)
(* ===================================================================== *)

Module TraceExitFacts.
Import TraceGenerator TraceObservation Aggregator Harness TrialFacts.
Import BatteryFacts TraceFacts TraceDriverFacts.

(** X13.  When the target cannot be started for some scenario,
    [generate_traces] ends there with an uncaught [OSError]: no later
    scenario is launched, the last line printed is the announcement of that
    scenario and not the closing success line, and the interpreter exits with
    status 1. *)
Theorem trace_driver_stops_on_missing_target (w : World) :
  spawnable w 3 = false ->
  exists w' j,
    generate_traces w = (Raise OSError, w') /\
    (j < 3)%nat /\
    children w (launched w + j)%nat = CannotSpawn /\
    launched w' = (launched w + S j)%nat /\
    length (calls w') = (length (calls w) + j)%nat /\
    stdout w'
    = (stdout w ++ OutTraceGenerating
                   :: trace_outputs (children w) (launched w) [2; 3; 10])%list /\
    List.last (stdout w') OutBlank
    = OutTraceRunning (nth j SCENARIOS 0) (log_filename (nth j SCENARIOS 0)) /\
    exit_status (fst (generate_traces w)) = Some 1.
Proof.
  intros Hsp. unfold generate_traces.
  unfold bind at 1 3. rewrite print_spec.
  set (w1 := printed _ _).
  destruct (trace_loop_abort SCENARIOS w1 Hsp)
    as (w' & j & Hrun & Hj & Hbad & Hl & Hc & Ho & Hlast).
  cbn [now wall_clock environ on_path fs uncreatable children launched calls
       stdout w1 printed] in Hbad, Hl, Hc, Ho.
  unfold bind. rewrite Hrun. exists w', j.
  split; [reflexivity|]. split; [exact Hj|]. split; [exact Hbad|].
  split; [exact Hl|]. split; [exact Hc|].
  split; [rewrite Ho, <- app_assoc; reflexivity|].
  split; [exact Hlast|reflexivity].
Qed.

(** X14.  The trace driver exits with status 0 exactly when the output
    directory is there or can be created, [gcc] exits with status 0 and the
    target can be started for each of the three scenarios, whatever the
    targets then do; otherwise it exits with status 1, unless a [gcc] that
    never exits blocks it. *)
Theorem trace_exit_status (w : World) :
  let c := children w (launched w) in
  let targets_start :=
    forallb (fun k => can_start (children w k)) (seq (S (launched w)) 3) in
  (exit_status (fst (main w)) = Some 0 <->
   dir_ready w = true /\ exits_zero c = true /\ targets_start = true) /\
  (fst (main w) = Hang <-> dir_ready w = true /\ never_exits c = true) /\
  (exit_status (fst (main w)) = Some 0 \/
   exit_status (fst (main w)) = Some 1 \/
   fst (main w) = Hang).
Proof.
  cbv zeta.
  remember (forallb (fun k => can_start (children w k))
                    (seq (S (launched w)) 3)) as ts eqn:Ets.
  assert (Hmain : main w
                  = match setup w with
                    | (Return _, w1) => generate_traces w1
                    | (Raise e, w1) => (Raise e, w1)
                    | (SysExit c, w1) => (SysExit c, w1)
                    | (Hang, w1) => (Hang, w1)
                    end).
  { unfold main, bind. destruct (setup w) as [[[]| | |] w1]; reflexivity. }
  rewrite Hmain, setup_spec. clear Hmain.
  destruct (dir_ready w).
  2:{ cbn. split; [split; [|intros [? _]]; congruence|].
      split; [split; [|intros [? _]]; congruence|]. tauto. }
  unfold subprocess_run, after_launch, exits_zero, never_exits, printed.
  cbn [now wall_clock environ on_path fs uncreatable children launched calls
       stdout].
  destruct (children w (launched w)) as [|[[d|] s o e t]];
    cbn -[Qplus Qmax generate_traces].
  - split; [split; [|intros (_ & ? & _)]; congruence|].
    split; [split; [|intros [_ ?]]; congruence|]. tauto.
  - destruct (Z.eqb_spec s 0) as [->|Hs]; cbn -[Qplus Qmax generate_traces].
    + match goal with |- context [generate_traces ?x] => set (w1 := x) end.
      assert (Hts : ts = spawnable w1 3) by (rewrite Ets; reflexivity).
      clear Ets. subst ts.
      destruct (spawnable w1 3) eqn:Hsp.
      * destruct (generate_traces_run w1 Hsp) as (new & w' & -> & _). cbn.
        split; [tauto|].
        split; [split; [|intros [_ ?]]; congruence|]. tauto.
      * destruct (generate_traces_abort w1 Hsp) as (w' & ->). cbn.
        split; [split; [|intros (_ & _ & ?)]; congruence|].
        split; [split; [|intros [_ ?]]; congruence|]. tauto.
    + split; [split; [|intros (_ & ? & _)]; congruence|].
      split; [split; [|intros [_ ?]]; congruence|]. tauto.
  - split; [split; [|intros (_ & ? & _)]; congruence|].
    split; [|tauto]. split; [intros _; split; reflexivity|reflexivity].
Qed.

End TraceExitFacts.

(* ===================================================================== *)
(** * The environment of the traced children *)
(* ===================================================================== *)

Module TraceEnvFacts.
Import TraceGenerator TraceObservation Aggregator TrialFacts BatteryFacts.
Import TraceFacts.

(** X15.  Each traced child receives the harness's environment with
    [DINING_LOG_FILE] replaced: every other variable reaches it unchanged, a
    value the harness itself had for [DINING_LOG_FILE] is overridden by the
    scenario's log path, and the harness's own environment is as before. *)
Theorem trace_children_inherit_environment (w : World) :
  spawnable w 3 = true ->
  exists new w',
    generate_traces w = (Return tt, w') /\
    calls w' = (calls w ++ new)%list /\
    length new = 3%nat /\
    Forall (fun c => forall key,
                key <> "DINING_LOG_FILE" ->
                call_env c !! key = environ w !! key) new /\
    Forall (fun c => exists n,
                In n SCENARIOS /\
                call_env c !! "DINING_LOG_FILE" = Some (log_filename n) /\
                call_argv c = [BINARY_NAME; str n]) new /\
    environ w' = environ w.
Proof.
  intros Hsp.
  destruct (generate_traces_run w Hsp)
    as (new & w' & Hrun & (_ & _ & H3 & _) & _ & Hc & Ha & He & _).
  exists new, w'. split; [exact Hrun|].
  split; [exact Hc|].
  assert (Hlen : length new = 3%nat).
  { rewrite <- (List.length_map call_env), He, List.length_map. reflexivity. }
  split; [exact Hlen|].
  destruct new as [|c1 [|c2 [|c3 [|c4 rest]]]]; try discriminate.
  cbn [map SCENARIOS] in Ha, He.
  injection Ha as Ha1 Ha2 Ha3. injection He as He1 He2 He3.
  split; [|split; [|exact H3]].
  - repeat constructor; intros key Hkey;
      rewrite ?He1, ?He2, ?He3; unfold trace_env;
      apply lookup_insert_ne; congruence.
  - repeat constructor; [exists 2|exists 3|exists 10];
      rewrite ?He1, ?He2, ?He3, ?Ha1, ?Ha2, ?Ha3; unfold trace_env;
      rewrite lookup_insert_eq; cbn [In SCENARIOS]; repeat split; tauto.
Qed.

End TraceEnvFacts.

(* ===================================================================== *)
(** * The harness on four targets *)
(* ===================================================================== *)

Module EndToEndFacts.
Import StressTester Aggregator Hosts EndToEnd.

(** A target that exits with status 0 after a quarter of a second. *)
Example target_always_succeeds :
  summary_of (run_stress_test
                (host (fun _ => Spawned (simple (Some (1 # 4)%Q) 0))))
  = Some [(2, 30, 0, 0, "0.2500"); (3, 30, 0, 0, "0.2500");
          (10, 30, 0, 0, "0.2500"); (50, 30, 0, 0, "0.2500")] /\
  exit_status
    (fst (main (host (built_then (Spawned (simple (Some (1 # 4)%Q) 0))))))
  = Some 0.
Proof. split; vm_compute; reflexivity. Qed.

(** A target that never terminates. *)
Example target_sleeps_forever :
  summary_of (run_stress_test (host (fun _ => Spawned (simple None 0))))
  = Some [(2, 0, 0, 30, "0.0000"); (3, 0, 0, 30, "0.0000");
          (10, 0, 0, 30, "0.0000"); (50, 0, 0, 30, "0.0000")] /\
  Qred (now (snd (run_stress_test
                    (host (fun _ => Spawned (simple None 0)))))) = 600%Q /\
  exit_status (fst (main (host (built_then (Spawned (simple None 0))))))
  = Some 1.
Proof. repeat split; vm_compute; reflexivity. Qed.

(** A target that exits with status 1 at once. *)
Example target_always_fails :
  summary_of (run_stress_test
                (host (fun _ => Spawned (simple (Some 0%Q) 1))))
  = Some [(2, 0, 30, 0, "0.0000"); (3, 0, 30, 0, "0.0000");
          (10, 0, 30, 0, "0.0000"); (50, 0, 30, 0, "0.0000")] /\
  exit_status (fst (main (host (built_then (Spawned (simple (Some 0%Q) 1))))))
  = Some 1.
Proof. split; vm_compute; reflexivity. Qed.

(** A target that exits with status 0 after one second and leaves a
    descendant holding its standard error: every trial times out. *)
Example target_leaves_descendant :
  summary_of (run_stress_test orphan_host)
  = Some [(2, 0, 0, 30, "0.0000"); (3, 0, 0, 30, "0.0000");
          (10, 0, 0, 30, "0.0000"); (50, 0, 0, 30, "0.0000")] /\
  exit_status (fst (main (host (built_then (Spawned orphaning))))) = Some 1.
Proof. split; vm_compute; reflexivity. Qed.

(** Without [make] on the search path nothing is launched. *)
Example make_missing :
  exit_status (fst (main Harness.no_make)) = Some 1 /\
  launched (snd (main Harness.no_make)) = 0%nat.
Proof. split; vm_compute; reflexivity. Qed.

End EndToEndFacts.

(* ===================================================================== *)
(** * The theorems at concrete hosts *)
(* ===================================================================== *)

Module Witnesses.
Import StressTester Aggregator Hosts TraceObservation.

(** A summary with a deadlock and a runtime error is failed with exit
    code 1. *)
Lemma verdict_iff_all_clean_witness :
  Forall counts_nonneg failed_summary /\
  exists b w',
    overall_pass failed_summary (host mixed) = Return b /\
    (b = true <-> Forall clean failed_summary) /\
    print_report failed_summary (host mixed)
    = (SysExit (if b then 0 else 1), w').
Proof.
  assert (H : Forall counts_nonneg failed_summary).
  { repeat constructor; simpl; lia. }
  split; [exact H|].
  destruct (Verdict.verdict_iff_all_clean failed_summary (host mixed) H)
    as (b & w' & H1 & H2 & H3 & _).
  exists b, w'. repeat split; try assumption; apply H2.
Defined.

(** Two summaries that differ everywhere but in their failure counts. *)
Lemma verdict_depends_on_failures_only_witness :
  Forall2 (fun a b => st_fails a = st_fails b /\
                      st_deadlocks a = st_deadlocks b)
          failed_summary failed_summary' /\
  overall_pass failed_summary (host mixed)
  = overall_pass failed_summary' (host mixed') /\
  exit_status (fst (print_report failed_summary (host mixed)))
  = exit_status (fst (print_report failed_summary' (host mixed'))).
Proof.
  assert (H : Forall2 (fun a b => st_fails a = st_fails b /\
                                  st_deadlocks a = st_deadlocks b)
                      failed_summary failed_summary').
  { repeat constructor. }
  split; [exact H|].
  destruct (Verdict.verdict_depends_on_failures_only
              failed_summary failed_summary' (host mixed) (host mixed') H)
    as (H1 & _ & H3).
  split; assumption.
Defined.

(** The first child of [mixed] exits with status 0 after half a second and
    is a success; a child that exits in time but leaves its standard error
    open is a deadlock, and is not killed. *)
Lemma trial_classified_witness :
  children (host mixed) (launched (host mixed))
  = Spawned (simple (Some (1 # 2)%Q) 0) /\
  children orphan_host (launched orphan_host) = Spawned orphaning /\
  (fst (trial 2 (mkCounters 0 0 0 0%float) (host mixed))
   = Return (mkCounters (0 + 1) 0 0
               (0 + (wall_clock (host mixed)
                       (now (snd (trial 2 (mkCounters 0 0 0 0%float)
                                        (host mixed))))
                     - wall_clock (host mixed) (now (host mixed))))%float) /\
   stdout (snd (trial 2 (mkCounters 0 0 0 0%float) (host mixed)))
   = (stdout (host mixed) ++ [OutMark "."])%list) /\
  (fst (trial 2 (mkCounters 0 0 0 0%float) orphan_host)
   = Return (mkCounters 0 0 (0 + 1) 0%float) /\
   map call_killed
       (skipn (length (calls orphan_host))
              (calls (snd (trial 2 (mkCounters 0 0 0 0%float) orphan_host))))
   = [negb (exited_before (inject_Z TIMEOUT_SECONDS) (lifetime orphaning))]).
Proof.
  assert (H : children (host mixed) (launched (host mixed))
              = Spawned (simple (Some (1 # 2)%Q) 0)) by reflexivity.
  assert (H' : children orphan_host (launched orphan_host)
               = Spawned orphaning) by reflexivity.
  split; [exact H|]. split; [exact H'|]. split.
  - destruct (Trials.trial_classified 2 (mkCounters 0 0 0 0%float)
                (host mixed) (simple (Some (1 # 2)%Q) 0) H) as (Hok & _).
    destruct Hok as (H1 & H2 & _); [repeat split|].
    split; assumption.
  - destruct (Trials.trial_classified 2 (mkCounters 0 0 0 0%float)
                orphan_host orphaning H') as (_ & _ & Hout & _).
    destruct Hout as (H1 & _ & H3 & _).
    + intros [_ Hheld]. exact Hheld.
    + split; assumption.
Defined.

Lemma counters_sum_to_trial_count_witness :
  spawnable (host mixed) (length SCENARIOS * Z.to_nat NUM_RUNS) = true /\
  exists summary w',
    run_stress_test (host mixed) = (Return summary, w') /\
    length summary = length SCENARIOS /\
    Forall (fun s => st_success s + st_fails s + st_deadlocks s = 30) summary.
Proof.
  assert (H : spawnable (host mixed) (length SCENARIOS * Z.to_nat NUM_RUNS)
              = true) by (vm_compute; reflexivity).
  split; [exact H|].
  destruct (Trials.counters_sum_to_trial_count (host mixed) H)
    as ((summary & w' & H1 & H2 & _ & H3) & _).
  exists summary, w'. repeat split; assumption.
Defined.

Lemma stress_test_battery_shape_witness :
  spawnable (host mixed) (4 * 30) = true /\
  exists summary new w',
    run_stress_test (host mixed) = (Return summary, w') /\
    map st_users summary = [2; 3; 10; 50] /\
    calls w' = (calls (host mixed) ++ new)%list /\
    map call_sig new
    = (repeat (["./dining_hall"; "2"], Some (inject_Z 5)) 30 ++
       repeat (["./dining_hall"; "3"], Some (inject_Z 5)) 30 ++
       repeat (["./dining_hall"; "10"], Some (inject_Z 5)) 30 ++
       repeat (["./dining_hall"; "50"], Some (inject_Z 5)) 30)%list /\
    launched w' = (launched (host mixed) + 120)%nat.
Proof.
  assert (H : spawnable (host mixed) (4 * 30) = true)
    by (vm_compute; reflexivity).
  split; [exact H|].
  exact (Trials.stress_test_battery_shape (host mixed) H).
Defined.



(** The executable disappears before launch 45. *)
Lemma missing_executable_aborts_witness :
  spawnable (host (missing_at 45)) (4 * 30) = false /\
  (exists w' j,
     run_stress_test (host (missing_at 45)) = (Raise OSError, w') /\
     (j < 120)%nat /\
     children (host (missing_at 45)) (launched (host (missing_at 45)) + j)%nat
     = CannotSpawn /\
     launched w' = (launched (host (missing_at 45)) + S j)%nat) /\
  exit_status (fst (run_stress_test (host (missing_at 45)))) = Some 1.
Proof.
  assert (H : spawnable (host (missing_at 45)) (4 * 30) = false)
    by (vm_compute; reflexivity).
  split; [exact H|].
  destruct (MissingExecutable.missing_executable_aborts (host (missing_at 45)) H)
    as (H1 & H2 & _).
  split; assumption.
Defined.

Lemma trace_log_paths_witness :
  spawnable (host mixed) 3 = true /\
  exists new w',
    TraceGenerator.generate_traces (host mixed) = (Return tt, w') /\
    calls w' = (calls (host mixed) ++ new)%list /\
    map (fun c => call_env c !! "DINING_LOG_FILE") new
    = [Some "trace_logs/trace_2_students.txt";
       Some "trace_logs/trace_3_students.txt";
       Some "trace_logs/trace_10_students.txt"] /\
    environ w' = environ (host mixed).
Proof.
  assert (H : spawnable (host mixed) 3 = true) by (vm_compute; reflexivity).
  split; [exact H|].
  destruct (TraceFacts.trace_log_paths (host mixed) H)
    as (new & w' & H1 & H2 & _ & _ & H5 & H6 & _).
  exists new, w'. repeat split; assumption.
Defined.

(** [gcc] succeeds; the three scenarios then fail, hang and succeed. *)
Lemma trace_driver_exits_zero_witness :
  spawnable (snd (TraceGenerator.setup (host mixed))) 3 = true /\
  TraceGenerator.setup (host mixed)
  = (Return tt, snd (TraceGenerator.setup (host mixed))) /\
  exists w',
    TraceGenerator.main (host mixed) = (Return tt, w') /\
    exit_status (fst (TraceGenerator.main (host mixed))) = Some 0 /\
    launched w' = 4%nat /\
    stdout w'
    = [OutTracePreparing; OutTraceGenerating;
       OutTraceRunning 2 "trace_logs/trace_2_students.txt";
       OutTraceExecError 2;
       OutTraceRunning 3 "trace_logs/trace_3_students.txt";
       OutTraceTimeout 3;
       OutTraceRunning 10 "trace_logs/trace_10_students.txt";
       OutTraceDone].
Proof.
  assert (H : spawnable (snd (TraceGenerator.setup (host mixed))) 3 = true)
    by (vm_compute; reflexivity).
  assert (Hs : TraceGenerator.setup (host mixed)
               = (Return tt, snd (TraceGenerator.setup (host mixed))))
    by (vm_compute; reflexivity).
  split; [exact H|]. split; [exact Hs|].
  destruct (TraceFacts.trace_driver_exits_zero
              (snd (TraceGenerator.setup (host mixed))) H)
    as ((w' & _ & _ & C & D & E) & _ & _).
  destruct (E (host mixed) Hs) as (A & B).
  exists w'. split; [exact A|]. split; [exact B|].
  split; [rewrite C; vm_compute; reflexivity|].
  rewrite D. vm_compute. reflexivity.
Defined.

End Witnesses.

(* ===================================================================== *)
(** * The further theorems at concrete hosts *)
(* ===================================================================== *)

Module MoreWitnesses.
Import StressTester Aggregator Harness Hosts TraceObservation.

(** A host without [make]. *)
Lemma check_compilation_make_missing_witness :
  ("make" ∉ on_path no_make) /\
  fst (check_compilation no_make) = SysExit 1 /\
  launched (snd (check_compilation no_make)) = launched no_make.
Proof.
  assert (H : "make" ∉ on_path no_make) by (cbn; set_solver).
  split; [exact H|].
  destruct (BuildFacts.check_compilation_make_missing no_make H)
    as (H1 & H2 & _).
  split; assumption.
Defined.

(** A host on which [make] exits with status 1. *)
Lemma build_failure_runs_no_trial_witness :
  build_succeeds make_fails = false /\
  snd (main make_fails) = snd (check_compilation make_fails) /\
  (launched (snd (main make_fails)) <= launched make_fails + 2)%nat.
Proof.
  assert (H : build_succeeds make_fails = false) by (vm_compute; reflexivity).
  split; [exact H|].
  destruct (BuildFacts.build_failure_runs_no_trial make_fails H)
    as (H1 & H2 & _).
  split; assumption.
Defined.

(** A build that succeeds, then targets that exit with status 0 in time but
    leave their standard error open. *)
Lemma stress_exit_status_witness :
  build_succeeds (host (built_then (Spawned orphaning))) = true /\
  forallb (fun k => can_start
                      (children (host (built_then (Spawned orphaning))) k))
          (seq (launched (host (built_then (Spawned orphaning))) + 2) 120)
  = true /\
  fst (main (host (built_then (Spawned orphaning)))) = SysExit 1 /\
  launched (snd (main (host (built_then (Spawned orphaning))))) = 122%nat.
Proof.
  set (w := host (built_then (Spawned orphaning))).
  assert (H1 : build_succeeds w = true) by (vm_compute; reflexivity).
  assert (H2 : forallb (fun k => can_start (children w k))
                       (seq (launched w + 2) 120) = true)
    by (vm_compute; reflexivity).
  split; [exact H1|]. split; [exact H2|].
  destruct (PipelineFacts.stress_exit_status w H1 H2) as (A & B).
  split; [rewrite A; vm_compute; reflexivity|exact B].
Defined.

Lemma progress_marks_match_counts_witness :
  spawnable (host mixed) (Z.to_nat 3) = true /\
  exists st marks w',
    run_scenario 3 pair [] (host mixed)
    = (Return ([] ++ [st])%list, w') /\
    length marks = Z.to_nat 3 /\
    mark_count "." marks = st_success st /\
    mark_count "E" marks = st_fails st /\
    mark_count "D" marks = st_deadlocks st.
Proof.
  assert (H : spawnable (host mixed) (Z.to_nat 3) = true)
    by (vm_compute; reflexivity).
  split; [exact H|].
  destruct (ScenarioFacts.progress_marks_match_counts 3 pair [] (host mixed) H)
    as (st & marks & w' & A & _ & B & _ & C & D & E).
  exists st, marks, w'. repeat split; assumption.
Defined.

(** Three children that exit in time and leave their standard error open:
    three deadlocks, nobody killed. *)
Lemma killed_children_match_deadlocks_witness :
  spawnable orphan_host (Z.to_nat 3) = true /\
  exists st new w',
    run_scenario 3 pair [] orphan_host = (Return ([] ++ [st])%list, w') /\
    calls w' = (calls orphan_host ++ new)%list /\
    length new = Z.to_nat 3 /\
    map call_killed new = [false; false; false] /\
    st_deadlocks st = 3 /\
    killed_count new <= st_deadlocks st.
Proof.
  assert (H : spawnable orphan_host (Z.to_nat 3) = true)
    by (vm_compute; reflexivity).
  split; [exact H|].
  destruct (ScenarioFacts.killed_children_match_deadlocks 3 pair []
              orphan_host H)
    as (st & new & w' & A & B & C & _ & D & E & F & _).
  exists st, new, w'. split; [exact A|]. split; [exact B|].
  split; [exact C|]. split; [rewrite D; reflexivity|].
  split; [rewrite E; reflexivity|exact F].
Defined.

Lemma summary_counts_bounded_witness :
  0 <= 30 /\
  spawnable (host mixed) (length SCENARIOS * Z.to_nat 30) = true /\
  exists summary w',
    run_battery SCENARIOS 30 (host mixed) = (Return summary, w') /\
    length summary = length SCENARIOS /\
    Forall (fun s => 0 <= st_success s <= 30 /\
                     0 <= st_fails s <= 30 /\
                     0 <= st_deadlocks s <= 30) summary.
Proof.
  assert (H0 : 0 <= 30) by lia.
  assert (H : spawnable (host mixed) (length SCENARIOS * Z.to_nat 30) = true)
    by (vm_compute; reflexivity).
  split; [exact H0|]. split; [exact H|].
  exact (ScenarioFacts.summary_counts_bounded SCENARIOS 30 (host mixed) H0 H).
Defined.

(** The target disappears before the second trace scenario. *)
Lemma trace_driver_stops_on_missing_target_witness :
  spawnable (host (missing_at 1)) 3 = false /\
  exists w' j,
    TraceGenerator.generate_traces (host (missing_at 1))
    = (Raise OSError, w') /\
    (j < 3)%nat /\
    launched w' = (launched (host (missing_at 1)) + S j)%nat /\
    exit_status (fst (TraceGenerator.generate_traces (host (missing_at 1))))
    = Some 1.
Proof.
  assert (H : spawnable (host (missing_at 1)) 3 = false)
    by (vm_compute; reflexivity).
  split; [exact H|].
  destruct (TraceExitFacts.trace_driver_stops_on_missing_target
              (host (missing_at 1)) H)
    as (w' & j & A & B & _ & C & _ & _ & _ & D).
  exists w', j. repeat split; assumption.
Defined.

End MoreWitnesses.

Module TraceEnvWitness.
Import TraceGenerator Aggregator Hosts.

Lemma trace_children_inherit_environment_witness :
  spawnable (host mixed) 3 = true /\
  exists new w',
    generate_traces (host mixed) = (Return tt, w') /\
    calls w' = (calls (host mixed) ++ new)%list /\
    length new = 3%nat /\
    environ w' = environ (host mixed).
Proof.
  assert (H : spawnable (host mixed) 3 = true) by (vm_compute; reflexivity).
  split; [exact H|].
  destruct (TraceEnvFacts.trace_children_inherit_environment (host mixed) H)
    as (new & w' & A & B & C & _ & _ & D).
  exists new, w'. repeat split; assumption.
Defined.

End TraceEnvWitness.
